(** * Epochalyst: the pipeline artifact cache, the dask-array cache block
    and the augmentation utilities.

    Shallow embedding of
    - [src/epochalyst/pipeline/model/transformation/transformation_block.py]
      ([TransformationBlock.transform]),
    - [src/epochalyst/pipeline/caching/dask_array/cache_full_block.py]
      ([CacheFullBlock.transform]),
    - [src/epochalyst/pipeline/model/training/augmentation/utils.py]
      ([CustomSequential], [NoOp], [AddBackgroundNoiseWrapper]).

    Python exceptions are the left side of a sum; Python code that touches
    the outside world runs in a small error-state monad that keeps the
    state reached at the point an exception was raised. *)

From stdpp Require Import base gmap strings list.
From Stdlib Require Import ZArith QArith Ascii.
Local Close Scope Q_scope.

(* ------------------------------------------------------------------ *)
(** ** Exceptions and the error-state monad *)

Inductive exn :=
  | CachePipelineError (msg : string)
  | ConfigurationError (msg : string)
  | UnsupportedFormatError (msg : string)
  | FileNotFoundError (path : string)
  | FileExistsError (path : string)
  | AttributeError (name : string)
  | ImportError (msg : string).

(** A computation over a world [W]: it returns a value or raises, and in
    both cases yields the world as it was left. *)
Definition M (W X : Type) : Type := W -> (exn + X) * W.

Definition mret {W X} (x : X) : M W X := fun w => (inr x, w).
Definition mbind {W X Y} (m : M W X) (k : X -> M W Y) : M W Y :=
  fun w => match m w with
           | (inl e, w') => (inl e, w')
           | (inr x, w') => k x w'
           end.
Definition mraise {W X} (e : exn) : M W X := fun w => (inl e, w).

Notation "'let*' x ':=' m 'in' k" := (mbind m (fun x => k))
  (at level 200, x name, m at level 100, k at level 200).

(* ------------------------------------------------------------------ *)
(** ** [TransformationBlock.transform] *)

(** [cache_args: dict[str, Any]]: an association list of string options.
    Its Python truthiness is non-emptiness. *)
Abbreviation cache_args_t := (list (string * string)).

Definition truthy_dict (d : cache_args_t) : bool :=
  match d with [] => false | _ :: _ => true end.

(** The methods [transform] calls on [self], recorded in the order they
    are invoked (a call counter on every collaborator). *)
Inductive call :=
  | C_cache_exists
  | C_get_cache
  | C_custom_transform
  | C_store_cache.

(** The [_Cacher] mixin: the three cache primitives [transform] uses. *)
Class Cacher (W A : Type) := {
  _cache_exists : string -> cache_args_t -> M W bool;
  _get_cache : string -> cache_args_t -> M W A;
  _store_cache : string -> A -> cache_args_t -> M W unit
}.

Module TransformationBlock.
Section Transform.
Context {W A TArgs : Type} `{Cacher W A}.
(** [self.get_hash()] *)
Variable get_hash : string.
(** [self.custom_transform(data, **transform_args)], the user logic *)
Variable custom_transform : A -> TArgs -> M W A.

(** The world of [transform] pairs the program's world with the trace
    of method invocations; a method sees only the program's world. *)
Definition invoke {X} (c : call) (m : M W X) : M (W * list call) X :=
  fun '(w, tr) => let '(r, w') := m w in (r, (w', tr ++ [c])).

Definition transform (data : A) (cache_args : cache_args_t)
    (transform_args : TArgs) : M (W * list call) A :=
  let* hit :=
    (if truthy_dict cache_args
     then invoke C_cache_exists (_cache_exists get_hash cache_args)
     else mret false) in
  if hit then invoke C_get_cache (_get_cache get_hash cache_args)
  else
    let* data' := invoke C_custom_transform (custom_transform data transform_args) in
    let* _ :=
      (if truthy_dict cache_args
       then invoke C_store_cache (_store_cache get_hash data' cache_args)
       else mret tt) in
    mret data'.
End Transform.
End TransformationBlock.

(* ------------------------------------------------------------------ *)
(** ** Chunked (dask) arrays and the filesystem they are stored in *)

(** A materialised n-dimensional array: the chunk sizes along each axis
    ([x.chunks]) and the elements in C order. *)
Record ndarray := mk_ndarray {
  chunks : list (list nat);
  elems : list Z
}.

(** A lazy dask array: its deferred computation graph.  [DFromNpyStack]
    is the handle built by [da.from_npy_stack(path)]: it carries the chunks
    read from the stack's [info] file and reads the chunk files when it is
    computed. *)
Inductive darray :=
  | DLit (v : ndarray)
  | DAddConst (c : Z) (a : darray)
  | DRechunk (cs : list (list nat)) (a : darray)
  | DFromNpyStack (path : string) (cs : list (list nat)).

(** Depth of the computation graph. *)
Fixpoint depth (a : darray) : nat :=
  match a with
  | DLit _ | DFromNpyStack _ _ => 1
  | DAddConst _ a' | DRechunk _ a' => S (depth a')
  end.

(** [x.chunks]: known without computing anything. *)
Fixpoint chunks_of (a : darray) : list (list nat) :=
  match a with
  | DLit v => chunks v
  | DAddConst _ a' => chunks_of a'
  | DRechunk cs _ => cs
  | DFromNpyStack _ cs => cs
  end.

(** A directory on disk: the pickled [info] file, when present, and the
    chunk files [0.npy], [1.npy], ... *)
Record dir := mk_dir {
  info : option (list (list nat));
  chunk_files : list (list Z)
}.

Inductive io :=
  | IoExists (p : string)
  | IoMkdir (p : string)
  | IoWriteInfo (p : string)
  | IoWriteChunk (p : string) (i : nat)
  | IoReadInfo (p : string)
  | IoReadChunk (p : string) (i : nat).

(** The filesystem and the log of every access made to it. *)
Record fsw := mk_fsw {
  fs : gmap string dir;
  io_log : list io
}.

Definition log_io (w : fsw) (e : io) : fsw := mk_fsw (fs w) (io_log w ++ [e]).
Definition set_dir (w : fsw) (p : string) (d : dir) (e : io) : fsw :=
  mk_fsw (<[p := d]> (fs w)) (io_log w ++ [e]).

(** [os.path.exists(p)] *)
Definition os_path_exists (p : string) : M fsw bool :=
  fun w => (inr (bool_decide (is_Some (fs w !! p))), log_io w (IoExists p)).

(** [os.path.split(p)] ([posixpath.split]): [i = p.rfind("/") + 1],
    [head, tail = p[:i], p[i:]], and the trailing slashes of [head] are
    stripped unless [head] is all slashes. *)
Definition is_slash (c : ascii) : bool := Ascii.eqb c "/".

(** On the reversed path: the reversed [tail] and the reversed [head]. *)
Fixpoint span_tail (r : list ascii) : list ascii * list ascii :=
  match r with
  | [] => ([], [])
  | c :: r' => if is_slash c then ([], r) else let '(t, h) := span_tail r' in (c :: t, h)
  end.

Fixpoint drop_slashes (r : list ascii) : list ascii :=
  match r with
  | c :: r' => if is_slash c then drop_slashes r' else r
  | [] => []
  end.

Definition path_split (p : string) : string * string :=
  let '(rt, rh) := span_tail (rev (String.list_ascii_of_string p)) in
  let rh := if forallb is_slash rh then rh else drop_slashes rh in
  (String.string_of_list_ascii (rev rh), String.string_of_list_ascii (rev rt)).

(** [os.mkdir(p)]: raises when [p] exists. *)
Definition mkdir (p : string) : M fsw unit :=
  fun w => match fs w !! p with
           | Some _ => (inl (FileExistsError p), w)
           | None => (inr tt, set_dir w p (mk_dir None []) (IoMkdir p))
           end.

(** [try: ... except FileExistsError: pass] *)
Definition except_file_exists (m : M fsw unit) : M fsw unit :=
  fun w => match m w with
           | (inl (FileExistsError _), w') => (inr tt, w')
           | r => r
           end.

(** [os.makedirs(name)]: create the missing parent directories first
    (recursively, on [head]), then [name].  Every recursive call is on a
    strictly shorter path, so [String.length name] bounds the depth. *)
Fixpoint makedirs_fuel (fuel : nat) (name : string) : M fsw unit :=
  let '(head, tail) := path_split name in
  let '(head, tail) := if String.eqb tail "" then path_split head else (head, tail) in
  match fuel with
  | 0 => mkdir name
  | S fuel' =>
      if negb (String.eqb head "") && negb (String.eqb tail "") then
        let* e := os_path_exists head in
        if e then mkdir name
        else
          let* _ := except_file_exists (makedirs_fuel fuel' head) in
          if String.eqb tail "." then mret tt else mkdir name
      else mkdir name
  end.

Definition os_makedirs (p : string) : M fsw unit := makedirs_fuel (String.length p) p.

(** [os.mkdir(p)], as used by [da.to_npy_stack] after its own existence
    check. *)
Definition os_mkdir (p : string) : M fsw unit :=
  fun w => (inr tt, set_dir w p (mk_dir None []) (IoMkdir p)).

Definition axis0 (cs : list (list nat)) : list nat :=
  match cs with [] => [] | c0 :: _ => c0 end.

(** Number of elements in one index of axis 0. *)
Definition row_size (cs : list (list nat)) : nat :=
  foldr Nat.mul 1 (map sum_list (tail cs)).

(** Cut [l] into consecutive pieces of the given lengths. *)
Fixpoint split_by (ns : list nat) (l : list Z) : list (list Z) :=
  match ns with
  | [] => []
  | n :: ns' => take n l :: split_by ns' (drop n l)
  end.

(** Read the chunk files of a stack directory: [np.load] of [i.npy] for
    every chunk [i] along axis 0. *)
Fixpoint read_chunks (p : string) (files : list (list Z)) (i n : nat) (w : fsw)
    : (exn + list Z) * fsw :=
  match n with
  | 0 => (inr [], w)
  | S n' =>
      match files !! i with
      | None => (inl (FileNotFoundError p), w)
      | Some f =>
          match read_chunks p files (S i) n' (log_io w (IoReadChunk p i)) with
          | (inr rest, w') => (inr (f ++ rest), w')
          | (inl e, w') => (inl e, w')
          end
      end
  end.

(** Computing a dask array ([x.compute()]) against the filesystem. *)
Fixpoint compute (a : darray) : M fsw ndarray :=
  match a with
  | DLit v => mret v
  | DAddConst c a' =>
      let* v := compute a' in mret (mk_ndarray (chunks v) (map (Z.add c) (elems v)))
  | DRechunk cs a' =>
      let* v := compute a' in mret (mk_ndarray cs (elems v))
  | DFromNpyStack p cs =>
      fun w => match fs w !! p with
               | None => (inl (FileNotFoundError p), w)
               | Some d =>
                   match read_chunks p (chunk_files d) 0 (length (axis0 cs)) w with
                   | (inr es, w') => (inr (mk_ndarray cs es), w')
                   | (inl e, w') => (inl e, w')
                   end
               end
  end.

(** [da.from_npy_stack(p)]: reads the [info] file and builds a handle
    whose only node reads the chunk files of [p]. *)
Definition from_npy_stack (p : string) : M fsw darray :=
  fun w => match fs w !! p with
           | Some (mk_dir (Some cs) _) => (inr (DFromNpyStack p cs), log_io w (IoReadInfo p))
           | _ => (inl (FileNotFoundError (p ++ "/info")), log_io w (IoReadInfo p))
           end.

(** The chunking [da.to_npy_stack(p, x, axis=0)] stores:
    [tuple(c if i == axis else (sum(c),) for i, c in enumerate(x.chunks))]. *)
Definition stack_chunks (cs : list (list nat)) : list (list nat) :=
  match cs with
  | [] => []
  | c0 :: rest => c0 :: map (fun c => [sum_list c]) rest
  end.

Definition write_info (p : string) (cs : list (list nat)) : M fsw unit :=
  fun w => let old := default (mk_dir None []) (fs w !! p) in
           (inr tt, set_dir w p (mk_dir (Some cs) (chunk_files old)) (IoWriteInfo p)).

(** [np.save(os.path.join(p, "%d.npy" % i), chunk)] for every chunk;
    files of an earlier, longer stack beyond the new ones stay. *)
Fixpoint write_chunks (p : string) (i : nat) (blocks : list (list Z)) : M fsw unit :=
  match blocks with
  | [] => mret tt
  | b :: bs =>
      fun w =>
        let old := default (mk_dir None []) (fs w !! p) in
        write_chunks p (S i) bs
          (set_dir w p (mk_dir (info old) (<[i := b]> (chunk_files old) ++
                                           (if decide (i = length (chunk_files old))
                                            then [b] else [])))
                   (IoWriteChunk p i))
  end.

(** [da.to_npy_stack(p, x)] *)
Definition to_npy_stack (p : string) (x : darray) : M fsw unit :=
  let cs := stack_chunks (chunks_of x) in
  let* e := os_path_exists p in
  let* _ := (if e then mret tt else os_mkdir p) in
  let* _ := write_info p cs in
  let* v := compute (DRechunk cs x) in
  write_chunks p 0 (split_by (map (fun c => c * row_size cs) (axis0 cs)) (elems v)).

(* ------------------------------------------------------------------ *)
(** ** [CacheFullBlock.transform] *)

Module CacheFullBlock.

(** A complete chunk-stack directory: an [info] file and one chunk file
    per chunk along axis 0. *)
Definition complete_stack (d : dir) : bool :=
  match info d with
  | Some cs => bool_decide (length (axis0 cs) <= length (chunk_files d))
  | None => false
  end.

(** Modelled from the spec: [BaseCacheBlock._data_exists] (the base class
    in [base_cache_block.py], not among the sources).  Section 4.5: when a
    complete chunk-stack directory exists at the path (checked via
    [exists]; not merely a directory), it returns a lazy handle reading
    the existing chunks; otherwise nothing. *)
Definition _data_exists (data_path : string) (X : darray) : M fsw (option darray) :=
  fun w =>
    let w1 := log_io w (IoExists data_path) in
    match fs w !! data_path with
    | Some d =>
        if complete_stack d
        then let* h := from_npy_stack data_path in mret (Some h)
        else mret None
    | None => mret None
    end w1.

(** Python truthiness of [self.data_path] ([None] or a string). *)
Definition truthy_str (s : option string) : bool :=
  match s with
  | None => false
  | Some p => negb (String.eqb p "")
  end.

Definition transform (data_path : option string) (X : darray) : M fsw darray :=
  match data_path with
  | Some p =>
      if negb (String.eqb p "") then
        let* array := _data_exists p X in
        match array with
        | Some a => mret a
        | None =>
            let* e := os_path_exists p in
            let* _ := (if e then mret tt else os_makedirs p) in
            let* _ := to_npy_stack p X in
            from_npy_stack p
        end
      else mraise (CachePipelineError "data_path is required")
  | None => mraise (CachePipelineError "data_path is required")
  end.

End CacheFullBlock.

(* ------------------------------------------------------------------ *)
(** ** The cache manager behind [_Cacher] *)

Module SpecCacher.

(** [cache_args.get(k)] *)
Fixpoint lookup_arg (k : string) (ca : cache_args_t) : option string :=
  match ca with
  | [] => None
  | (k', v) :: ca' => if String.eqb k' k then Some v else lookup_arg k ca'
  end.

(** The storage path of a cache configuration, failing when it is unset
    or empty. *)
Definition storage_path (ca : cache_args_t) : M fsw string :=
  match lookup_arg "storage_path" ca with
  | Some p => if String.eqb p "" then mraise (ConfigurationError "storage_path")
              else mret p
  | None => mraise (ConfigurationError "storage_path")
  end.

(** The backend registry, for the one pair whose backend produces a
    [darray]: chunked array ([dask_array]) stored as a chunk-stack
    directory ([.npy_stack]). *)
Definition resolve (ca : cache_args_t) : M fsw unit :=
  match lookup_arg "output_data_type" ca, lookup_arg "storage_type" ca with
  | Some "dask_array", Some ".npy_stack" => mret tt
  | _, _ => mraise (UnsupportedFormatError "output_data_type/storage_type")
  end.

(** Modelled from the spec: [_Cacher] ([epochalyst/_core/_caching/_cacher.py],
    not among the sources), sections 4.2 and 4.3: [cacheExists]
    delegates to the backend's [exists] (a complete chunk-stack directory
    at the path), [getCache] to its [load] (a lazy handle on the path),
    [storeCache] to its [save] (create the directory idempotently, then
    write the chunk stack).  The key does not take part: existence is
    structural. *)
Global Instance spec_cacher : Cacher fsw darray := {
  _cache_exists := fun _ ca =>
    let* p := storage_path ca in
    let* _ := resolve ca in
    fun w => (inr (match fs w !! p with
                   | Some d => CacheFullBlock.complete_stack d
                   | None => false end), log_io w (IoExists p));
  _get_cache := fun _ ca =>
    let* p := storage_path ca in
    let* _ := resolve ca in
    from_npy_stack p;
  _store_cache := fun _ d ca =>
    let* p := storage_path ca in
    let* _ := resolve ca in
    let* e := os_path_exists p in
    let* _ := (if e then mret tt else os_makedirs p) in
    to_npy_stack p d
}.

End SpecCacher.

(* ------------------------------------------------------------------ *)
(** ** Sample inputs *)

(** A 4 x 2 array split into 4 chunks of one row along axis 0. *)
Definition arr4x2 : ndarray := mk_ndarray [[1;1;1;1]; [2]] [1;2;3;4;5;6;7;8]%Z.

(** A 2 x 2 array split into 4 chunks of one element each. *)
Definition arr2x2 : ndarray := mk_ndarray [[1;1]; [1;1]] [1;2;3;4]%Z.

Definition empty_fsw : fsw := mk_fsw ∅ [].

Definition npy_stack_args (p : string) : cache_args_t :=
  [("output_data_type", "dask_array"); ("storage_type", ".npy_stack");
   ("storage_path", p)].

(** The world left by a first [CacheFullBlock] run storing [arr4x2] at
    ["C"]: the directory holds its 4 chunk files. *)
Definition populated_C : fsw := snd (CacheFullBlock.transform (Some "C") (DLit arr4x2) empty_fsw).

(** A user transformation adding 1 to every element, lazily. *)
Definition add_one (d : darray) (_ : unit) : M fsw darray := mret (DAddConst 1 d).

(** [w'] differs from [w] at most at path [p]. *)
Definition frame (p : string) (w w' : fsw) : Prop :=
  forall q, q <> p -> fs w' !! q = fs w !! q.

(** A computation that only ever changes path [p]. *)
Definition frames {X} (p : string) (m : M fsw X) : Prop :=
  forall w, frame p w (snd (m w)).

(** An entry kept as it was, or a directory newly created empty. *)
Definition kept (o o' : option dir) : Prop :=
  o' = o \/ (o = None /\ o' = Some (mk_dir None [])).

(** [w'] only adds empty directories to [w]. *)
Definition grows (w w' : fsw) : Prop := forall q, kept (fs w !! q) (fs w' !! q).

(** Outside path [p], [w'] only adds empty directories to [w]. *)
Definition frame_keep (p : string) (w w' : fsw) : Prop :=
  forall q, q <> p -> kept (fs w !! q) (fs w' !! q).

(** [w'] has the same entry as [w] at path [q]. *)
Definition same_at (q : string) (w w' : fsw) : Prop := fs w' !! q = fs w !! q.

(** A computation whose final world is related to its initial one by [R]. *)
Definition within (R : fsw -> fsw -> Prop) {X} (m : M fsw X) : Prop :=
  forall w, R w (snd (m w)).

(** A computation that raises nothing but [FileExistsError]. *)
Definition raises_exists_only {X} (m : M fsw X) : Prop :=
  forall w e w', m w = (inl e, w') -> exists q, e = FileExistsError q.

(** Cache arguments naming a backend but no storage path. *)
Definition no_path_args : cache_args_t := [("output_data_type", "dask_array")].

(** A user transformation that raises. *)
Definition failing_transform (d : darray) (_ : unit) : M fsw darray :=
  mraise (FileNotFoundError "input.npy").

(** A user transformation returning a lazy array whose chunks are missing. *)
Definition lazy_missing (d : darray) (_ : unit) : M fsw darray :=
  mret (DFromNpyStack "missing" [[1]]).

(* ------------------------------------------------------------------ *)
(** ** Augmentation utilities ([augmentation/utils.py]) *)

Module Augmentation.

(** [CustomSequential]: the two transform lists of the dataclass (either
    may be [None]). *)
Record CustomSequential (T U : Type) := mk_CustomSequential {
  x_transforms : option (list (T -> T));
  xy_transforms : option (list (T -> U -> T * U))
}.
Arguments mk_CustomSequential {T U}.
Arguments x_transforms {T U}.
Arguments xy_transforms {T U}.

(** [for transform in ts: x = transform(x)] *)
Fixpoint loop_x {T} (ts : list (T -> T)) (x : T) : T :=
  match ts with
  | [] => x
  | transform :: ts' => loop_x ts' (transform x)
  end.

(** [for transform in ts: x, y = transform(x, y)] *)
Fixpoint loop_xy {T U} (ts : list (T -> U -> T * U)) (x : T) (y : U) : T * U :=
  match ts with
  | [] => (x, y)
  | transform :: ts' => let '(x', y') := transform x y in loop_xy ts' x' y'
  end.

Definition CustomSequential_call {T U} (self : CustomSequential T U) (x : T) (y : U)
    : T * U :=
  let x := match x_transforms self with
           | Some ts => loop_x ts x
           | None => x
           end in
  match xy_transforms self with
  | Some ts => loop_xy ts x y
  | None => (x, y)
  end.

(** The reading of the spec: the composite of the x-transforms, the first
    one innermost, then that of the xy-transforms. *)
Definition compose_in_order {T} (ts : list (T -> T)) : T -> T :=
  foldr (fun t acc => fun x => acc (t x)) (fun x => x) ts.
Definition compose_pairs_in_order {T U} (ts : list (T -> U -> T * U)) : T * U -> T * U :=
  foldr (fun t acc => fun xy => acc (t xy.1 xy.2)) (fun xy => xy) ts.

(** [NoOp]: a dataclass with one field [p]. *)
Record NoOp := mk_NoOp { noop_p : Q }.

Definition NoOp_call {Tensor} (self : NoOp) (x : Tensor) : Tensor := x.

(** Python values met by [AddBackgroundNoiseWrapper]. *)
#[local] Set Warnings "-register-all".
Inductive pyval :=
  | PNone
  | PFloat (q : Q)
  | PStr (s : string)
  | PObj (cls : string) (kwargs : list (string * pyval)).

Abbreviation pydict := (list (string * pyval)).

Fixpoint dict_get (k : string) (d : pydict) : option pyval :=
  match d with
  | [] => None
  | (k', v) :: d' => if String.eqb k' k then Some v else dict_get k d'
  end.

Fixpoint dict_set (k : string) (v : pyval) (d : pydict) : pydict :=
  match d with
  | [] => [(k, v)]
  | (k', v') :: d' => if String.eqb k' k then (k, v) :: d' else (k', v') :: dict_set k v d'
  end.

(** The class attributes of [AddBackgroundNoiseWrapper]: [@dataclass]
    keeps each field's default value as a class attribute. *)
Definition AddBackgroundNoiseWrapper_class_dict : pydict :=
  [("p", PFloat (1 # 2)); ("sounds_path", PStr "data/raw/");
   ("min_snr_db", PFloat (-3 # 1)); ("max_snr_db", PFloat (3 # 1));
   ("aug", PNone)].

(** An instance: its [__dict__]. *)
Record instance := mk_instance { __dict__ : pydict }.

(** [getattr(self, name)]: the instance dictionary, then the class. *)
Definition getattr (self : instance) (name : string) : exn + pyval :=
  match dict_get name (__dict__ self) with
  | Some v => inr v
  | None =>
      match dict_get name AddBackgroundNoiseWrapper_class_dict with
      | Some v => inr v
      | None => inl (AttributeError name)
      end
  end.

Definition setattr (self : instance) (name : string) (v : pyval) : instance :=
  mk_instance (dict_set name v (__dict__ self)).

(** What the wrapper depends on outside the repository: whether CUDA is
    available, the [audiomentations] module when installed (its
    [AddBackgroundNoise] and [PolarityInversion] constructors), and the
    application of an augmentation object to a signal. *)
Record env := mk_env {
  cuda_is_available : bool;
  audiomentations : option (string -> pydict -> exn + pyval);
  apply_aug : pyval -> list Q -> Z -> exn + list Q
}.

Definition get_audiomentations (E : env) : exn + (string -> pydict -> exn + pyval) :=
  match audiomentations E with
  | Some lib => inr lib
  | None => inl (ImportError "If you want to use this augmentation you must install audiomentations")
  end.

Definition sum_bind {X Y} (m : exn + X) (k : X -> exn + Y) : exn + Y :=
  match m with inl e => inl e | inr x => k x end.

Definition __post_init__ (E : env) (self : instance) : exn + instance :=
  sum_bind
    (if cuda_is_available E then
       sum_bind (getattr self "p") (fun p =>
       sum_bind (getattr self "sounds_path") (fun sounds_path =>
       sum_bind (getattr self "max_snr_db") (fun max_snr_db =>
       sum_bind (get_audiomentations E) (fun lib =>
       sum_bind (lib "PolarityInversion" [("p", PFloat (1 # 2))]) (fun noise =>
       sum_bind (lib "AddBackgroundNoise"
                   [("p", p); ("sounds_path", sounds_path);
                    ("min_snr_db", max_snr_db); ("max_snr_db", max_snr_db);
                    ("noise_transform", noise)]) (fun aug =>
       inr (setattr self "aug" aug)))))))
     else inr (setattr self "aug" PNone))
    (fun self => inr (mk_instance [("Placeholder", PStr "Remove Later")])).

(** The dataclass constructor: [__init__] stores every field in the
    instance dictionary, then calls [__post_init__]. *)
Definition AddBackgroundNoiseWrapper (E : env) (p : Q) (sounds_path : string)
    (min_snr_db max_snr_db : Q) (aug : pyval) : exn + instance :=
  __post_init__ E
    (mk_instance [("p", PFloat p); ("sounds_path", PStr sounds_path);
                  ("min_snr_db", PFloat min_snr_db); ("max_snr_db", PFloat max_snr_db);
                  ("aug", aug)]).

(** [AddBackgroundNoiseWrapper()] with the default field values. *)
Definition AddBackgroundNoiseWrapper_default (E : env) : exn + instance :=
  AddBackgroundNoiseWrapper E (1 # 2) "data/raw/" (-3 # 1) (3 # 1) PNone.

Definition AddBackgroundNoiseWrapper_call (E : env) (self : instance)
    (x : list Q) (sr : Z) : exn + list Q :=
  sum_bind (getattr self "aug") (fun aug =>
    match aug with
    | PNone => inr x
    | _ => apply_aug E aug x sr
    end).

(** A machine with CUDA and [audiomentations] installed, whose
    augmentation objects perturb every sample. *)
Definition gpu_env : env :=
  mk_env true (Some (fun cls kwargs => inr (PObj cls kwargs)))
         (fun _ x _ => inr (map (Qplus (1 # 10)) x)).

(** A machine with CUDA, where [audiomentations] is not installed. *)
Definition gpu_env_no_lib : env :=
  mk_env true None (fun _ x _ => inr x).

End Augmentation.

(** [CustomApplyOne]: applies one transform, drawn at random, of its two
    lists. *)
Module ApplyOne.

Inductive error :=
  | TypeError (msg : string)
  | IndexError (msg : string)
  | RuntimeError (msg : string).

(** A Python number given as the [p] of a transform: an [int] or a
    [float] (as a rational). *)
Inductive pynum :=
  | PyInt (z : Z)
  | PyFloat (q : Q).

Definition is_int (n : pynum) : bool :=
  match n with PyInt _ => true | PyFloat _ => false end.

Definition to_Q (n : pynum) : Q :=
  match n with PyInt z => inject_Z z | PyFloat q => q end.

Section ApplyOne.
Context {T U : Type}.

(** A transform object: its identity ([id(t)]), its class, its [p], and
    its [__call__] with one argument [x] and with two arguments [x, y]
    ([None] where that arity raises [TypeError]). *)
Record transform := mk_transform {
  t_id : nat;
  t_cls : string;
  t_p : pynum;
  t_call1 : option (T -> T);
  t_call2 : option (T -> U -> T * U)
}.

(** [__eq__] of the transform objects. *)
Variable t_eq : transform -> transform -> bool.

(** [t in l]: some element of [l] is [t] itself or equal to it. *)
Definition py_in (t : transform) (l : list transform) : bool :=
  existsb (fun e => Nat.eqb (t_id e) (t_id t) || t_eq e t) l.

(** An instance once [__post_init__] has completed ([None] for a
    non-finite entry of the probability tensor). *)
Record CustomApplyOne := mk_CustomApplyOne {
  x_transforms : list transform;
  xy_transforms : list transform;
  probabilities : list pynum;
  probabilities_tensor : list (option Q);
  all_transforms : list transform
}.

(** [torch.tensor(ps)] infers [int64] for a non-empty list of [int]s,
    a floating dtype otherwise ([float32] for the empty list). *)
Definition is_int_tensor (ps : list pynum) : bool :=
  match ps with [] => false | _ :: _ => forallb is_int ps end.

(** A floating tensor divided in place by its sum: [x / 0] is not
    finite. *)
Definition float_tensor (ps : list pynum) : list (option Q) :=
  let s := foldr Qplus 0%Q (map to_Q ps) in
  map (fun q => if Qeq_bool s 0 then None else Some (q / s)%Q) (map to_Q ps).

(** [self.probabilities_tensor = torch.tensor(ps)] followed by
    [self.probabilities_tensor /= self.probabilities_tensor.sum()]: the
    in-place true division of an [int64] tensor raises [RuntimeError]. *)
Definition normalise (ps : list pynum) : error + list (option Q) :=
  if is_int_tensor ps
  then inl (RuntimeError "result type Float can't be cast to the desired output type Long")
  else inr (float_tensor ps).

(** [for transform in ts: probabilities.append(transform.p)] *)
Fixpoint append_ps (probabilities : list pynum) (ts : list transform) : list pynum :=
  match ts with
  | [] => probabilities
  | transform :: ts' => append_ps (probabilities ++ [t_p transform]) ts'
  end.

(** Lines 43-49: the probabilities collected from the lists that are not
    [None]. *)
Definition collect_probabilities (xs xys : option (list transform)) : list pynum :=
  let probabilities := [] in
  let probabilities := match xs with Some l => append_ps probabilities l | None => probabilities end in
  match xys with Some l => append_ps probabilities l | None => probabilities end.

(** [__post_init__] on the two fields ([None] or a list);
    [self.x_transforms + self.xy_transforms] raises [TypeError] when
    either is [None]. *)
Definition __post_init__ (xs xys : option (list transform)) : error + CustomApplyOne :=
  let probabilities := collect_probabilities xs xys in
  match normalise probabilities with
  | inl e => inl e
  | inr probabilities_tensor =>
      match xs, xys with
      | Some l1, Some l2 =>
          inr (mk_CustomApplyOne l1 l2 probabilities probabilities_tensor (l1 ++ l2))
      | _, _ => inl (TypeError "unsupported operand type(s) for +")
      end
  end.

(** [__call__], given the index [i] that [torch.multinomial] drew. *)
Definition __call__ (self : CustomApplyOne) (i : nat) (x : T) (y : U) : error + (T * U) :=
  match all_transforms self !! i with
  | None => inl (IndexError "list index out of range")
  | Some transform =>
      let rx := if py_in transform (x_transforms self)
                then match t_call1 transform with
                     | Some f => inr (f x)
                     | None => inl (TypeError "__call__")
                     end
                else inr x in
      match rx with
      | inl e => inl e
      | inr x =>
          if py_in transform (xy_transforms self)
          then match t_call2 transform with
               | Some g => inr (g x y)
               | None => inl (TypeError "__call__")
               end
          else inr (x, y)
      end
  end.

End ApplyOne.

Arguments transform : clear implicits.
Arguments CustomApplyOne : clear implicits.

(** [NoOp(p=...)] objects, which take [x] only, as transforms on
    integers. *)
Definition noop_t (ident : nat) (p : pynum) : transform Z Z :=
  mk_transform ident "NoOp" p (Some (fun x => x)) None.

(** An xy-transform swapping [x] and [y]. *)
Definition swap_t (ident : nat) : transform Z Z :=
  mk_transform ident "Swap" (PyFloat (1 # 2)) None (Some (fun x y => (y, x))).

(** The [__eq__] of a [@dataclass] whose only field is [p]: same class
    and equal [p] ([1 == 1.0]). *)
Definition dataclass_eq (a b : transform Z Z) : bool :=
  String.eqb (t_cls a) (t_cls b) && Qeq_bool (to_Q (t_p a)) (to_Q (t_p b)).

End ApplyOne.

(* ================================================================== *)
(** * Properties *)

(** ** [TransformationBlock.transform] *)

Section TransformationBlockFacts.
  Context {W A TArgs : Type} `{Cacher W A}.
  Variable get_hash : string.

(** C7: without cache arguments ([cache_args = {}]), [transform] returns
    exactly what [custom_transform(data, **transform_args)] returns, in the
    world it leaves, and invokes no cache primitive: the only method call
    made is [custom_transform]. *)
Lemma transform_without_cache_args
    (custom_transform : A -> TArgs -> M W A) (data : A) (transform_args : TArgs)
    (w : W) (tr : list call) :
  TransformationBlock.transform get_hash custom_transform data [] transform_args (w, tr)
  = let '(r, w') := custom_transform data transform_args w in
    (r, (w', tr ++ [C_custom_transform])).
Proof.
  unfold TransformationBlock.transform, TransformationBlock.invoke, mbind, mret; cbn.
  destruct (custom_transform data transform_args w) as [[e|d] w']; reflexivity.
Qed.

(** C1: with cache arguments whose cache entry exists, [transform]
    returns what [_get_cache] loads; the only calls made are the
    existence check and the load, so [custom_transform] is never invoked
    (and the outcome does not depend on it). *)
Lemma transform_cache_hit
    (custom_transform : A -> TArgs -> M W A) (data : A) (cache_args : cache_args_t)
    (transform_args : TArgs) (w w1 : W) (tr : list call) :
  truthy_dict cache_args = true ->
  _cache_exists get_hash cache_args w = (inr true, w1) ->
  TransformationBlock.transform get_hash custom_transform data cache_args transform_args (w, tr)
  = let '(r, w2) := _get_cache get_hash cache_args w1 in
    (r, (w2, tr ++ [C_cache_exists; C_get_cache])).
Proof.
  intros Htruthy Hexists.
  unfold TransformationBlock.transform, TransformationBlock.invoke, mbind.
  rewrite Htruthy, Hexists.
  destruct (_get_cache get_hash cache_args w1) as [r w2].
  by rewrite <- app_assoc.
Qed.

(** On a cache miss with cache arguments, the value returned is the one
    [custom_transform] produced; the store runs after it and what it does
    to the data is not returned. *)
Lemma transform_cache_miss_returns_custom
    (custom_transform : A -> TArgs -> M W A) (data d : A) (cache_args : cache_args_t)
    (transform_args : TArgs) (w w1 w2 w3 : W) (tr : list call) :
  truthy_dict cache_args = true ->
  _cache_exists get_hash cache_args w = (inr false, w1) ->
  custom_transform data transform_args w1 = (inr d, w2) ->
  _store_cache get_hash d cache_args w2 = (inr tt, w3) ->
  TransformationBlock.transform get_hash custom_transform data cache_args transform_args (w, tr)
  = (inr d, (w3, tr ++ [C_cache_exists; C_custom_transform; C_store_cache])).
Proof.
  intros Htruthy Hexists Hct Hstore.
  unfold TransformationBlock.transform, TransformationBlock.invoke, mbind, mret.
  rewrite Htruthy, Hexists, Hct, Hstore.
  by rewrite <- !app_assoc.
Qed.

End TransformationBlockFacts.

(** ** The filesystem primitives *)

Lemma from_npy_stack_handle (p : string) (w w' : fsw) (h : darray) :
  from_npy_stack p w = (inr h, w') -> exists cs, h = DFromNpyStack p cs.
Proof.
  unfold from_npy_stack.
  destruct (fs w !! p) as [[[cs|] files]|]; intros Heq; inversion Heq; eauto.
Qed.

Lemma fsw_eta (w : fsw) : mk_fsw (fs w) (io_log w) = w.
Proof. by destruct w. Qed.

(** Writing the chunk files [i, i+1, ...] of a directory whose first [i]
    files are [pre]: the new blocks replace the following files, the
    remaining older files stay, and one write is logged per block. *)
Lemma write_chunks_spec (p : string) (bs : list (list Z)) :
  forall (i : nat) (pre old : list (list Z)) inf (w : fsw),
  fs w !! p = Some (mk_dir inf (pre ++ old)) -> length pre = i ->
  write_chunks p i bs w =
  (inr tt, mk_fsw (<[p := mk_dir inf (pre ++ bs ++ drop (length bs) old)]> (fs w))
                  (io_log w ++ map (IoWriteChunk p) (seq i (length bs)))).
Proof.
  induction bs as [|b bs IH]; intros i pre old inf w Hp Hi.
  - cbn. rewrite drop_0, !app_nil_r, insert_id by done.
    by rewrite fsw_eta.
  - cbn [write_chunks]. rewrite Hp. cbn [default id info chunk_files].
    assert (Hfiles : <[i:=b]> (pre ++ old) ++
              (if decide (i = length (pre ++ old)) then [b] else [])
            = (pre ++ [b]) ++ drop 1 old).
    { subst i. destruct old as [|o old'].
      - rewrite app_nil_r, list_insert_ge by lia.
        case_decide; [cbn; by rewrite app_nil_r|lia].
      - case_decide as Hd; [rewrite length_app in Hd; cbn in Hd; lia|].
        rewrite app_nil_r.
        rewrite <- (Nat.add_0_r (length pre)), insert_app_r.
        cbn. by rewrite <- app_assoc. }
    rewrite Hfiles.
    rewrite (IH (S i) (pre ++ [b]) (drop 1 old) inf).
    + cbn. rewrite insert_insert_eq, drop_drop, <- !app_assoc. done.
    + cbn. by rewrite lookup_insert_eq.
    + rewrite length_app; cbn; lia.
Qed.

(** [compute] only reads: it leaves the filesystem as it is. *)
Lemma read_chunks_fs (p : string) (files : list (list Z)) :
  forall (n i : nat) (w : fsw), fs (snd (read_chunks p files i n w)) = fs w.
Proof.
  induction n as [|n IH]; intros i w; cbn; [done|].
  destruct (files !! i); cbn; [|done].
  pose proof (IH (S i) (log_io w (IoReadChunk p i))) as H.
  destruct (read_chunks p files (S i) n (log_io w (IoReadChunk p i))) as [[e|r] w'];
    cbn in *; done.
Qed.

Lemma compute_fs (a : darray) : forall (w : fsw), fs (snd (compute a w)) = fs w.
Proof.
  induction a as [v|c a IH|cs a IH|p cs]; intros w; cbn.
  - done.
  - unfold mbind. specialize (IH w). destruct (compute a w) as [[e|v] w']; cbn in *; done.
  - unfold mbind. specialize (IH w). destruct (compute a w) as [[e|v] w']; cbn in *; done.
  - destruct (fs w !! p) as [d|]; cbn; [|done].
    pose proof (read_chunks_fs p (chunk_files d) (length (axis0 cs)) 0 w) as H.
    destruct (read_chunks p (chunk_files d) 0 (length (axis0 cs)) w) as [[e|es] w'];
      cbn in *; done.
Qed.

(** The files of [p] before a write: none when the directory is absent. *)
Definition files_at (w : fsw) (p : string) : list (list Z) :=
  match fs w !! p with Some d => chunk_files d | None => [] end.

(** The prelude of [da.to_npy_stack]: after the existence check, the
    optional [mkdir] and the [info] write, [p] is a directory holding the
    new [info] and the files it held before. *)
Lemma to_npy_stack_prelude {X} (p : string) (cs : list (list nat)) (w : fsw)
    (k : unit -> M fsw X) :
  exists w2,
    (let* e := os_path_exists p in
     let* _ := (if e then mret tt else os_mkdir p) in
     let* u := write_info p cs in k u) w = k tt w2 /\
    fs w2 !! p = Some (mk_dir (Some cs) (files_at w p)).
Proof.
  unfold mbind, os_path_exists, files_at; cbn beta.
  destruct (fs w !! p) as [d|] eqn:Hp.
  - rewrite bool_decide_eq_true_2 by done.
    cbn. rewrite Hp. cbn. eexists; split; [reflexivity|].
    cbn. by rewrite lookup_insert_eq.
  - rewrite bool_decide_eq_false_2 by (intros [? ?]; done).
    cbn. rewrite lookup_insert_eq. cbn. eexists; split; [reflexivity|].
    cbn. by rewrite lookup_insert_eq.
Qed.

(** After a successful [da.to_npy_stack(p, X)], [p] holds the [info] of
    the stacked chunking. *)
Lemma to_npy_stack_info (p : string) (X : darray) (w w' : fsw) :
  to_npy_stack p X w = (inr tt, w') ->
  exists files, fs w' !! p = Some (mk_dir (Some (stack_chunks (chunks_of X))) files).
Proof.
  unfold to_npy_stack.
  set (cs := stack_chunks (chunks_of X)).
  destruct (to_npy_stack_prelude p cs w
              (fun _ => let* v := compute (DRechunk cs X) in
                        write_chunks p 0 (split_by (map (fun c => c * row_size cs) (axis0 cs))
                                            (elems v))))
    as (w2 & -> & Hp2).
  unfold mbind at 1.
  pose proof (compute_fs (DRechunk cs X) w2) as Hfs.
  destruct (compute (DRechunk cs X) w2) as [[e|v] w3]; [discriminate|].
  cbn in Hfs.
  assert (Hp3 : fs w3 !! p = Some (mk_dir (Some cs) ([] ++ files_at w p))) by (rewrite Hfs; done).
  rewrite (write_chunks_spec p _ 0 [] (files_at w p) (Some cs) w3 Hp3 eq_refl).
  intros Heq; inversion Heq; subst; cbn.
  rewrite lookup_insert_eq. eauto.
Qed.

Lemma mbind_inr {W X Y} (m : M W X) (k : X -> M W Y) (w w' : W) (y : Y) :
  mbind m k w = (inr y, w') -> exists x w1, m w = (inr x, w1) /\ k x w1 = (inr y, w').
Proof.
  unfold mbind. destruct (m w) as [[e|x] w1]; [discriminate|]. eauto.
Qed.

(** ** [CacheFullBlock] *)

Lemma data_exists_handle (p : string) (X : darray) (w w' : fsw) (a : darray) :
  CacheFullBlock._data_exists p X w = (inr (Some a), w') ->
  exists cs, a = DFromNpyStack p cs.
Proof.
  unfold CacheFullBlock._data_exists.
  destruct (fs w !! p) as [d|]; [|discriminate].
  destruct (CacheFullBlock.complete_stack d); [|discriminate].
  intros (h & w1 & Hh & Hk)%mbind_inr.
  inversion Hk; subst. eapply from_npy_stack_handle; eauto.
Qed.

Lemma data_exists_miss (p : string) (X : darray) (w : fsw) :
  (forall d, fs w !! p = Some d -> CacheFullBlock.complete_stack d = false) ->
  CacheFullBlock._data_exists p X w = (inr None, log_io w (IoExists p)).
Proof.
  intros Hmiss. unfold CacheFullBlock._data_exists.
  destruct (fs w !! p) as [d|] eqn:Hp; [|done].
  by rewrite (Hmiss d eq_refl).
Qed.

Lemma eqb_nonempty (p : string) : p <> "" -> String.eqb p "" = false.
Proof. intros Hp. by apply String.eqb_neq. Qed.

(** On a miss, [CacheFullBlock.transform] writes the stack and returns
    [da.from_npy_stack(data_path)], a single node on the stored chunks. *)
Lemma cache_full_block_miss_rebinds (p : string) (X : darray) (w w' : fsw) (h : darray) :
  p <> "" ->
  (forall d, fs w !! p = Some d -> CacheFullBlock.complete_stack d = false) ->
  CacheFullBlock.transform (Some p) X w = (inr h, w') ->
  h = DFromNpyStack p (stack_chunks (chunks_of X)).
Proof.
  intros Hp Hmiss. cbn [CacheFullBlock.transform]. rewrite eqb_nonempty by done. cbn [negb].
  intros (a & w1 & Ha & Hk)%mbind_inr.
  rewrite data_exists_miss in Ha by done. inversion Ha; subst; clear Ha.
  apply mbind_inr in Hk as (e & w2 & _ & Hk).
  apply mbind_inr in Hk as (u & w3 & _ & Hk).
  apply mbind_inr in Hk as (u' & w4 & Hstack & Hk).
  destruct u'. apply to_npy_stack_info in Hstack as [files Hfiles].
  unfold from_npy_stack in Hk. rewrite Hfiles in Hk. by inversion Hk.
Qed.

Lemma cache_full_block_returns_stack_handle (data_path : option string) (X : darray)
    (w w' : fsw) (h : darray) :
  CacheFullBlock.transform data_path X w = (inr h, w') ->
  exists p cs, data_path = Some p /\ h = DFromNpyStack p cs.
Proof.
  destruct data_path as [p|]; [|discriminate].
  cbn [CacheFullBlock.transform].
  destruct (String.eqb p "") eqn:Hp; cbn [negb]; [discriminate|].
  intros (a & w1 & Ha & Hk)%mbind_inr.
  destruct a as [a|].
  - apply data_exists_handle in Ha as [cs ->]. inversion Hk; subst. eauto.
  - apply mbind_inr in Hk as (e & w2 & _ & Hk).
    apply mbind_inr in Hk as (u & w3 & _ & Hk).
    apply mbind_inr in Hk as (u' & w4 & _ & Hk).
    apply from_npy_stack_handle in Hk as [cs ->]. eauto.
Qed.

(* ------------------------------------------------------------------ *)
(** ** Claims on the cache *)

(** C1 (witness): the populated cache at ["C"] is returned and the user
    transformation is not called. *)
Lemma transform_cache_hit_witness :
  truthy_dict (npy_stack_args "C") = true /\
  _cache_exists "h" (npy_stack_args "C") populated_C
    = (inr true, snd (_cache_exists "h" (npy_stack_args "C") populated_C)) /\
  TransformationBlock.transform "h" add_one (DLit arr2x2) (npy_stack_args "C") tt
    (populated_C, [])
  = let '(r, w2) := _get_cache "h" (npy_stack_args "C")
                      (snd (_cache_exists "h" (npy_stack_args "C") populated_C)) in
    (r, (w2, [] ++ [C_cache_exists; C_get_cache])).
Proof.
  split; [reflexivity|]. split; [vm_compute; reflexivity|].
  apply (transform_cache_hit "h" add_one (DLit arr2x2) (npy_stack_args "C") tt
           populated_C (snd (_cache_exists "h" (npy_stack_args "C") populated_C)) []).
  - reflexivity.
  - vm_compute. reflexivity.
Defined.

(** C2 (counterexample): a dask-array cache miss through
    [TransformationBlock.transform]: the chunk stack is stored at ["C"],
    yet the value returned is the lazy result of [custom_transform], not
    the handle reading ["C"]. *)
Lemma transformation_block_miss_not_rebound :
  let '(r, (w, tr)) :=
    TransformationBlock.transform "h" add_one (DLit arr4x2) (npy_stack_args "C") tt
      (empty_fsw, []) in
  tr = [C_cache_exists; C_custom_transform; C_store_cache] /\
  option_map CacheFullBlock.complete_stack (fs w !! "C") = Some true /\
  r = inr (DAddConst 1 (DLit arr4x2)) /\
  r <> inr (DFromNpyStack "C" (stack_chunks [[1;1;1;1]; [2]])).
Proof.
  vm_compute. split; [reflexivity|]. split; [reflexivity|]. split; [reflexivity|].
  discriminate.
Qed.

(** C2 (amended): on a cache miss with cache arguments,
    [TransformationBlock.transform] returns the very value
    [custom_transform] produced, after the store; the rebinding to a
    handle reading the persisted stack is what [CacheFullBlock.transform]
    returns on a miss: [da.from_npy_stack(data_path)]. *)
Theorem cache_miss_return_values
    (W A TArgs : Type) (Hc : Cacher W A) (get_hash : string)
    (custom_transform : A -> TArgs -> M W A) (data d : A) (cache_args : cache_args_t)
    (transform_args : TArgs) (w w1 w2 w3 : W) (tr : list call)
    (p : string) (X : darray) (u u' : fsw) (h : darray) :
  truthy_dict cache_args = true ->
  _cache_exists get_hash cache_args w = (inr false, w1) ->
  custom_transform data transform_args w1 = (inr d, w2) ->
  _store_cache get_hash d cache_args w2 = (inr tt, w3) ->
  p <> "" ->
  (forall dr, fs u !! p = Some dr -> CacheFullBlock.complete_stack dr = false) ->
  CacheFullBlock.transform (Some p) X u = (inr h, u') ->
  TransformationBlock.transform get_hash custom_transform data cache_args transform_args (w, tr)
    = (inr d, (w3, tr ++ [C_cache_exists; C_custom_transform; C_store_cache])) /\
  h = DFromNpyStack p (stack_chunks (chunks_of X)).
Proof.
  intros Ht He Hct Hs Hp Hmiss Hcfb. split.
  - by eapply (transform_cache_miss_returns_custom get_hash custom_transform data d cache_args transform_args w w1 w2 w3 tr).
  - by eapply cache_full_block_miss_rebinds.
Qed.

Lemma cache_miss_return_values_witness :
  (truthy_dict (npy_stack_args "C") = true /\
   _cache_exists "h" (npy_stack_args "C") empty_fsw
     = (inr false, snd (_cache_exists "h" (npy_stack_args "C") empty_fsw)) /\
   add_one (DLit arr4x2) tt (snd (_cache_exists "h" (npy_stack_args "C") empty_fsw))
     = (inr (DAddConst 1 (DLit arr4x2)),
        snd (_cache_exists "h" (npy_stack_args "C") empty_fsw)) /\
   _store_cache "h" (DAddConst 1 (DLit arr4x2)) (npy_stack_args "C")
       (snd (_cache_exists "h" (npy_stack_args "C") empty_fsw))
     = (inr tt, snd (_store_cache "h" (DAddConst 1 (DLit arr4x2)) (npy_stack_args "C")
                       (snd (_cache_exists "h" (npy_stack_args "C") empty_fsw)))) /\
   "D" <> "" /\
   (forall dr, fs empty_fsw !! "D" = Some dr -> CacheFullBlock.complete_stack dr = false) /\
   CacheFullBlock.transform (Some "D") (DAddConst 1 (DLit arr4x2)) empty_fsw
     = (inr (DFromNpyStack "D" [[1;1;1;1]; [2]]),
        snd (CacheFullBlock.transform (Some "D") (DAddConst 1 (DLit arr4x2)) empty_fsw))) /\
  (TransformationBlock.transform "h" add_one (DLit arr4x2) (npy_stack_args "C") tt
     (empty_fsw, [])
   = (inr (DAddConst 1 (DLit arr4x2)),
      (snd (_store_cache "h" (DAddConst 1 (DLit arr4x2)) (npy_stack_args "C")
              (snd (_cache_exists "h" (npy_stack_args "C") empty_fsw))),
       [] ++ [C_cache_exists; C_custom_transform; C_store_cache])) /\
   DFromNpyStack "D" [[1;1;1;1]; [2]]
     = DFromNpyStack "D" (stack_chunks (chunks_of (DAddConst 1 (DLit arr4x2))))).
Proof.
  assert (Hcfb : CacheFullBlock.transform (Some "D") (DAddConst 1 (DLit arr4x2)) empty_fsw
     = (inr (DFromNpyStack "D" [[1;1;1;1]; [2]]),
        snd (CacheFullBlock.transform (Some "D") (DAddConst 1 (DLit arr4x2)) empty_fsw)))
    by (vm_compute; reflexivity).
  split.
  - split; [reflexivity|]. split; [vm_compute; reflexivity|].
    split; [reflexivity|]. split; [vm_compute; reflexivity|].
    split; [discriminate|]. split; [intros dr Hdr; discriminate Hdr|]. exact Hcfb.
  - apply (cache_miss_return_values fsw darray unit _ "h" add_one (DLit arr4x2)
             (DAddConst 1 (DLit arr4x2)) (npy_stack_args "C") tt empty_fsw
             (snd (_cache_exists "h" (npy_stack_args "C") empty_fsw))
             (snd (_cache_exists "h" (npy_stack_args "C") empty_fsw))
             (snd (_store_cache "h" (DAddConst 1 (DLit arr4x2)) (npy_stack_args "C")
                     (snd (_cache_exists "h" (npy_stack_args "C") empty_fsw))))
             [] "D" (DAddConst 1 (DLit arr4x2)) empty_fsw
             (snd (CacheFullBlock.transform (Some "D") (DAddConst 1 (DLit arr4x2)) empty_fsw))
             (DFromNpyStack "D" [[1;1;1;1]; [2]])).
    + reflexivity.
    + vm_compute. reflexivity.
    + reflexivity.
    + vm_compute. reflexivity.
    + discriminate.
    + intros dr Hdr. discriminate Hdr.
    + exact Hcfb.
Defined.

(** C3: whatever graph [X] has, the handle [CacheFullBlock.transform]
    returns is one node of depth 1 reading the chunk files of the
    configured [data_path]. *)
Theorem cache_full_block_depth_one (data_path : option string) (X : darray)
    (w w' : fsw) (h : darray) :
  CacheFullBlock.transform data_path X w = (inr h, w') ->
  depth h = 1 /\ exists p cs, data_path = Some p /\ h = DFromNpyStack p cs.
Proof.
  intros Ht.
  destruct (cache_full_block_returns_stack_handle data_path X w w' h Ht)
    as (p & cs & Hdp & ->).
  split; [reflexivity|eauto].
Qed.

(** C3 (witness): a graph of depth 4 is stored and comes back as a
    single read node. *)
Lemma cache_full_block_depth_one_witness :
  let X := DAddConst 1 (DRechunk [[2;2]; [2]] (DAddConst 5 (DLit arr4x2))) in
  depth X = 4 /\
  CacheFullBlock.transform (Some "D") X empty_fsw
    = (inr (DFromNpyStack "D" [[2;2]; [2]]),
       snd (CacheFullBlock.transform (Some "D") X empty_fsw)) /\
  (depth (DFromNpyStack "D" [[2;2]; [2]]) = 1 /\
   exists p cs, Some "D" = Some p /\ DFromNpyStack "D" [[2;2]; [2]] = DFromNpyStack p cs).
Proof.
  intros X. split; [reflexivity|]. split; [vm_compute; reflexivity|].
  apply (cache_full_block_depth_one (Some "D") X empty_fsw
           (snd (CacheFullBlock.transform (Some "D") X empty_fsw))).
  vm_compute. reflexivity.
Defined.

(** C4: with [data_path] unset or empty, [CacheFullBlock.transform]
    raises [CachePipelineError] and leaves the world exactly as it was:
    no existence check, no computation, no directory created. *)
Theorem cache_full_block_requires_data_path (X : darray) (w : fsw) :
  CacheFullBlock.transform None X w = (inl (CachePipelineError "data_path is required"), w) /\
  CacheFullBlock.transform (Some "") X w = (inl (CachePipelineError "data_path is required"), w).
Proof. split; reflexivity. Qed.

(** C5: when [data_path] already holds a complete chunk stack, the block
    writes nothing: the filesystem is unchanged, the only accesses are the
    existence check and the read of [info], and the handle returned reads
    the existing chunks. *)
Theorem cache_full_block_populated_no_write (p : string) (X : darray) (w : fsw)
    (cs : list (list nat)) (files : list (list Z)) :
  p <> "" ->
  fs w !! p = Some (mk_dir (Some cs) files) ->
  length (axis0 cs) <= length files ->
  CacheFullBlock.transform (Some p) X w
    = (inr (DFromNpyStack p cs), mk_fsw (fs w) (io_log w ++ [IoExists p; IoReadInfo p])).
Proof.
  intros Hp Hdir Hlen. cbn [CacheFullBlock.transform].
  rewrite eqb_nonempty by done. cbn [negb].
  assert (Hd : CacheFullBlock._data_exists p X w
               = (inr (Some (DFromNpyStack p cs)),
                  mk_fsw (fs w) (io_log w ++ [IoExists p; IoReadInfo p]))).
  { unfold CacheFullBlock._data_exists. rewrite Hdir.
    unfold CacheFullBlock.complete_stack. cbn [info chunk_files].
    rewrite bool_decide_eq_true_2 by done.
    unfold mbind, from_npy_stack, log_io. cbn. rewrite Hdir.
    cbn. by rewrite <- app_assoc. }
  unfold mbind at 1. by rewrite Hd.
Qed.

(** C5 (witness): a second run on ["C"], populated by a first run. *)
Lemma cache_full_block_populated_no_write_witness :
  "C" <> "" /\
  fs populated_C !! "C" = Some (mk_dir (Some [[1;1;1;1]; [2]]) [[1;2]; [3;4]; [5;6]; [7;8]]%Z) /\
  length (axis0 [[1;1;1;1]; [2]]) <= length ([[1;2]; [3;4]; [5;6]; [7;8]]%Z : list (list Z)) /\
  CacheFullBlock.transform (Some "C") (DLit arr2x2) populated_C
    = (inr (DFromNpyStack "C" [[1;1;1;1]; [2]]),
       mk_fsw (fs populated_C) (io_log populated_C ++ [IoExists "C"; IoReadInfo "C"])).
Proof.
  assert (Hdir : fs populated_C !! "C"
                 = Some (mk_dir (Some [[1;1;1;1]; [2]]) [[1;2]; [3;4]; [5;6]; [7;8]]%Z))
    by (vm_compute; reflexivity).
  split; [discriminate|]. split; [exact Hdir|]. split; [cbn; lia|].
  apply (cache_full_block_populated_no_write "C" (DLit arr2x2) populated_C [[1;1;1;1]; [2]] [[1;2]; [3;4]; [5;6]; [7;8]]%Z).
  - discriminate.
  - exact Hdir.
  - cbn; lia.
Defined.

(** ** Saving and loading a chunk stack *)

Lemma compute_chunks (a : darray) : forall (w : fsw) (v : ndarray),
  fst (compute a w) = inr v -> chunks v = chunks_of a.
Proof.
  induction a as [v0|c a IH|cs a IH|p cs]; intros w v; cbn.
  - by intros [= ->].
  - unfold mbind. specialize (IH w).
    destruct (compute a w) as [[e|v'] w']; cbn; [discriminate|].
    intros [= <-]. cbn. by apply IH.
  - unfold mbind. destruct (compute a w) as [[e|v'] w']; cbn; [discriminate|].
    by intros [= <-].
  - destruct (fs w !! p) as [d|]; cbn; [|discriminate].
    destruct (read_chunks p (chunk_files d) 0 (length (axis0 cs)) w) as [[e|es] w'];
      cbn; [discriminate|]. by intros [= <-].
Qed.

Lemma split_by_length (ns : list nat) : forall (l : list Z),
  length (split_by ns l) = length ns.
Proof. induction ns as [|n ns IH]; intros l; cbn; [done|by rewrite IH]. Qed.

Lemma concat_split_by (ns : list nat) : forall (l : list Z),
  length l <= sum_list ns -> concat (split_by ns l) = l.
Proof.
  induction ns as [|n ns IH]; intros l Hl; cbn in *.
  - by destruct l; [|cbn in Hl; lia].
  - rewrite IH by (rewrite length_drop; lia). apply take_drop.
Qed.

Lemma sum_list_scale (c0 : list nat) (rs : nat) :
  sum_list (map (fun c => c * rs) c0) = sum_list c0 * rs.
Proof. induction c0 as [|c c0 IH]; cbn; [done|rewrite IH; lia]. Qed.

Lemma row_size_stack (c0 : list nat) (rest : list (list nat)) :
  row_size (stack_chunks (c0 :: rest)) = foldr Nat.mul 1 (map sum_list rest).
Proof.
  unfold row_size, stack_chunks. cbn [tail].
  induction rest as [|c rest IH]; cbn; [done|]. rewrite IH. lia.
Qed.

(** Reading back [length bs] chunk files from index [length pre] of a
    directory laid out as [pre ++ bs ++ rest] yields [concat bs]. *)
Lemma read_chunks_blocks (p : string) (bs : list (list Z)) :
  forall (pre rest : list (list Z)) (w : fsw),
  exists w', read_chunks p (pre ++ bs ++ rest) (length pre) (length bs) w = (inr (concat bs), w').
Proof.
  induction bs as [|b bs IH]; intros pre rest w; cbn; [eauto|].
  rewrite list_lookup_middle by done.
  destruct (IH (pre ++ [b]) rest (log_io w (IoReadChunk p (length pre)))) as [w' Hw'].
  rewrite <- app_assoc, length_app in Hw'. cbn in Hw'.
  rewrite Nat.add_1_r in Hw'. rewrite Hw'. eauto.
Qed.

Lemma to_npy_stack_prelude_frame {X} (p : string) (cs : list (list nat)) (w : fsw)
    (k : unit -> M fsw X) :
  exists w2,
    (let* e := os_path_exists p in
     let* _ := (if e then mret tt else os_mkdir p) in
     let* u := write_info p cs in k u) w = k tt w2 /\
    fs w2 !! p = Some (mk_dir (Some cs) (files_at w p)) /\ frame p w w2.
Proof.
  unfold mbind, os_path_exists, files_at; cbn beta.
  destruct (fs w !! p) as [d|] eqn:Hp.
  - rewrite bool_decide_eq_true_2 by done.
    cbn. rewrite Hp. cbn. eexists; split; [reflexivity|]. split.
    + cbn. by rewrite lookup_insert_eq.
    + intros q Hq. cbn. by rewrite lookup_insert_ne by congruence.
  - rewrite bool_decide_eq_false_2 by (intros [? ?]; done).
    cbn. rewrite lookup_insert_eq. cbn. eexists; split; [reflexivity|]. split.
    + cbn. by rewrite lookup_insert_eq.
    + intros q Hq. cbn. by rewrite !lookup_insert_ne by congruence.
Qed.


(** A successful [da.to_npy_stack(p, X)] for an array [X] whose value [v]
    does not depend on what is stored at [p]: [p] holds the [info] of the
    stacked chunking and the blocks of [v] as its first chunk files (the
    order in which the [np.save] tasks run does not change the files), and
    no other path changes. *)
Lemma to_npy_stack_success (p : string) (X : darray) (v : ndarray) (w : fsw) :
  (forall w0, frame p w w0 -> fst (compute X w0) = inr v) ->
  exists w',
    to_npy_stack p X w = (inr tt, w') /\
    fs w' = <[p := mk_dir (Some (stack_chunks (chunks_of X)))
                   (split_by (map (fun c => c * row_size (stack_chunks (chunks_of X)))
                                  (axis0 (stack_chunks (chunks_of X)))) (elems v) ++
                    drop (length (split_by (map (fun c => c * row_size (stack_chunks (chunks_of X)))
                                                (axis0 (stack_chunks (chunks_of X)))) (elems v)))
                         (files_at w p))]> (fs w).
Proof.
  intros Hv. unfold to_npy_stack.
  set (cs := stack_chunks (chunks_of X)).
  destruct (to_npy_stack_prelude_frame p cs w
              (fun _ => let* v' := compute (DRechunk cs X) in
                        write_chunks p 0 (split_by (map (fun c => c * row_size cs) (axis0 cs))
                                            (elems v'))))
    as (w2 & -> & Hp2 & Hfr).
  specialize (Hv w2 Hfr).
  pose proof (compute_fs X w2) as Hfs.
  destruct (compute X w2) as [r w3] eqn:HX. cbn in Hfs, Hv. subst r.
  assert (Hrc : compute (DRechunk cs X) w2 = (inr (mk_ndarray cs (elems v)), w3))
    by (cbn; unfold mbind; by rewrite HX).
  unfold mbind at 1. rewrite Hrc. cbn [elems].
  set (bs := split_by (map (fun c => c * row_size cs) (axis0 cs)) (elems v)).
  assert (Hp3 : fs w3 !! p = Some (mk_dir (Some cs) ([] ++ files_at w p)))
    by (rewrite Hfs; done).
  rewrite (write_chunks_spec p bs 0 [] (files_at w p) (Some cs) w3 Hp3 eq_refl).
  eexists; split; [reflexivity|]. cbn [fs app]. apply map_eq. intros q.
  destruct (decide (q = p)) as [->|Hq]; [by rewrite !lookup_insert_eq|].
  rewrite !lookup_insert_ne by congruence. rewrite Hfs. by apply Hfr.
Qed.

(** C6 (counterexample): a 2 x 2 array in four 1 x 1 chunks, saved with
    [da.to_npy_stack] and loaded with [da.from_npy_stack]: the elements
    come back, but the chunks along axis 1 are merged into one. *)
Lemma npy_stack_roundtrip_rechunks :
  match to_npy_stack "E" (DLit arr2x2) empty_fsw with
  | (inr _, w1) =>
      match from_npy_stack "E" w1 with
      | (inr h, w2) =>
          fst (compute h w2) = inr (mk_ndarray [[1;1]; [2]] [1;2;3;4]%Z) /\
          fst (compute h w2) <> inr arr2x2
      | (inl _, _) => False
      end
  | (inl _, _) => False
  end.
Proof. vm_compute. split; [reflexivity|discriminate]. Qed.

(** C6 (amended): for an array [X] of at least one axis whose value [v]
    does not depend on what is stored at [p] (it may read any other path
    of the disk) and whose elements match its chunks, saving it at [p]
    and loading [p] back gives a handle computing the same elements, with
    the same chunks along axis 0 and a single chunk along every other
    axis. *)
Theorem npy_stack_roundtrip (p : string) (X : darray) (v : ndarray) (w : fsw) :
  (forall w0, frame p w w0 -> fst (compute X w0) = inr v) ->
  chunks v <> [] ->
  length (elems v) = foldr Nat.mul 1 (map sum_list (chunks v)) ->
  exists w1 h w2 w3,
    to_npy_stack p X w = (inr tt, w1) /\
    from_npy_stack p w1 = (inr h, w2) /\
    compute h w2 = (inr (mk_ndarray (stack_chunks (chunks v)) (elems v)), w3).
Proof.
  intros Hv Hne Hlen.
  assert (Hcs : chunks v = chunks_of X)
    by (apply (compute_chunks X w); apply Hv; by intros q _).
  destruct (to_npy_stack_success p X v w Hv) as (w1 & Hs & Hw1).
  rewrite Hcs in Hne, Hlen |- *.
  set (cs := stack_chunks (chunks_of X)) in *.
  set (bs := split_by (map (fun c => c * row_size cs) (axis0 cs)) (elems v)) in *.
  assert (Hn : length (axis0 cs) = length bs)
    by (unfold bs; by rewrite split_by_length, length_map).
  assert (Hcat : concat bs = elems v).
  { apply concat_split_by.
    unfold cs. destruct (chunks_of X) as [|c0 rest]; [done|].
    rewrite row_size_stack, sum_list_scale, Hlen. cbn. lia. }
  destruct (read_chunks_blocks p bs [] (drop (length bs) (files_at w p))
              (log_io w1 (IoReadInfo p))) as [w4 Hw4].
  exists w1, (DFromNpyStack p cs), (log_io w1 (IoReadInfo p)), w4.
  split; [exact Hs|].
  unfold from_npy_stack. rewrite Hw1, lookup_insert_eq. split; [reflexivity|].
  cbn [compute]. cbn [log_io fs]. rewrite Hw1, lookup_insert_eq. cbn [chunk_files].
  rewrite Hn. cbn [length app] in Hw4. rewrite Hw4, Hcat. reflexivity.
Qed.

(** C6 (witness): an array read from the stack stored at ["C"], rechunked
    to two chunks along axis 1, saved at ["D"] and loaded back. *)
Lemma npy_stack_roundtrip_witness :
  let X := DAddConst 1 (DRechunk [[2;2]; [1;1]] (DFromNpyStack "C" [[1;1;1;1]; [2]])) in
  let v := mk_ndarray [[2;2]; [1;1]] [2;3;4;5;6;7;8;9]%Z in
  (forall w0, frame "D" populated_C w0 -> fst (compute X w0) = inr v) /\
  chunks v <> [] /\
  length (elems v) = foldr Nat.mul 1 (map sum_list (chunks v)) /\
  exists w1 h w2 w3,
    to_npy_stack "D" X populated_C = (inr tt, w1) /\
    from_npy_stack "D" w1 = (inr h, w2) /\
    compute h w2 = (inr (mk_ndarray (stack_chunks (chunks v)) (elems v)), w3).
Proof.
  intros X v.
  assert (Hv : forall w0, frame "D" populated_C w0 -> fst (compute X w0) = inr v).
  { intros w0 Hw0. unfold X, v. cbn [compute]. unfold mbind. cbn beta.
    rewrite (Hw0 "C") by discriminate. vm_compute. reflexivity. }
  split; [exact Hv|]. split; [discriminate|]. split; [reflexivity|].
  apply (npy_stack_roundtrip "D" X v populated_C Hv).
  - discriminate.
  - reflexivity.
Defined.

(** ** Augmentation utilities *)

Section AugmentationFacts.
Import Augmentation.

(** C10 (loops): the [for] loops over the transforms are the composites
    of the transforms in list order. *)
Lemma loop_x_in_order {T} (ts : list (T -> T)) :
  forall x, loop_x ts x = compose_in_order ts x.
Proof. induction ts as [|t ts IH]; intros x; cbn; [done|apply IH]. Qed.

Lemma loop_xy_in_order {T U} (ts : list (T -> U -> T * U)) :
  forall x y, loop_xy ts x y = compose_pairs_in_order ts (x, y).
Proof.
  induction ts as [|t ts IH]; intros x y; cbn; [done|].
  destruct (t x y) as [x' y']. apply IH.
Qed.

(** C10: [CustomSequential.__call__] applies the x-transforms to [x] in
    list order, then the xy-transforms to the pair in list order (a
    [None] list applies nothing); with both lists empty it returns
    [(x, y)]. *)
Theorem CustomSequential_call_in_order {T U} (self : CustomSequential T U) (x : T) (y : U) :
  CustomSequential_call self x y
    = compose_pairs_in_order (default [] (xy_transforms self))
        (compose_in_order (default [] (x_transforms self)) x, y) /\
  CustomSequential_call (mk_CustomSequential (Some []) (Some [])) x y = (x, y).
Proof.
  split; [|reflexivity].
  destruct self as [[xs|] [xys|]]; unfold CustomSequential_call; cbn [x_transforms xy_transforms default];
    rewrite ?loop_x_in_order, ?loop_xy_in_order; reflexivity.
Qed.

(** C9: [NoOp.__call__] is the identity, whatever its [p]. *)
Theorem NoOp_call_identity {Tensor} (self : NoOp) (x : Tensor) :
  NoOp_call self x = x.
Proof. reflexivity. Qed.

Lemma post_init_placeholder (E : env) (self o : instance) :
  __post_init__ E self = inr o -> o = mk_instance [("Placeholder", PStr "Remove Later")].
Proof.
  unfold __post_init__, sum_bind at 1.
  destruct (if cuda_is_available E then _ else _); [discriminate|].
  by intros [= <-].
Qed.

End AugmentationFacts.

(** C8 (counterexample): built by the dataclass constructor on a machine
    with CUDA and [audiomentations], the wrapper's call returns normally:
    [self.aug] falls back to the class attribute [None] and the signal is
    returned unchanged. *)
Lemma AddBackgroundNoiseWrapper_call_returns :
  match Augmentation.AddBackgroundNoiseWrapper_default Augmentation.gpu_env with
  | inr o => Augmentation.AddBackgroundNoiseWrapper_call Augmentation.gpu_env o
               [1 # 2; -1 # 4]%Q 32000 = inr [1 # 2; -1 # 4]%Q
  | inl _ => False
  end.
Proof. reflexivity. Qed.

(** C8 (amended): every instance the dataclass constructor returns has
    the attribute dictionary [{"Placeholder": "Remove Later"}]; [self.aug]
    then resolves to the class attribute [None], so [__call__] returns its
    input unchanged and never applies the augmentation. *)
Theorem AddBackgroundNoiseWrapper_call_is_identity (E : Augmentation.env) (p : Q)
    (sounds_path : string) (min_snr_db max_snr_db : Q) (aug : Augmentation.pyval)
    (o : Augmentation.instance) :
  Augmentation.AddBackgroundNoiseWrapper E p sounds_path min_snr_db max_snr_db aug = inr o ->
  Augmentation.__dict__ o = [("Placeholder", Augmentation.PStr "Remove Later")] /\
  forall (x : list Q) (sr : Z), Augmentation.AddBackgroundNoiseWrapper_call E o x sr = inr x.
Proof.
  intros Ho. apply post_init_placeholder in Ho as ->. split; [reflexivity|].
  intros x sr. reflexivity.
Qed.

Lemma AddBackgroundNoiseWrapper_call_is_identity_witness :
  Augmentation.AddBackgroundNoiseWrapper Augmentation.gpu_env (1 # 2)%Q "data/raw/" (-3 # 1)%Q (3 # 1)%Q
    Augmentation.PNone
    = inr (Augmentation.mk_instance [("Placeholder", Augmentation.PStr "Remove Later")]) /\
  (Augmentation.__dict__ (Augmentation.mk_instance [("Placeholder", Augmentation.PStr "Remove Later")])
     = [("Placeholder", Augmentation.PStr "Remove Later")] /\
   forall (x : list Q) (sr : Z),
     Augmentation.AddBackgroundNoiseWrapper_call Augmentation.gpu_env
       (Augmentation.mk_instance [("Placeholder", Augmentation.PStr "Remove Later")]) x sr = inr x).
Proof.
  assert (Ho : Augmentation.AddBackgroundNoiseWrapper Augmentation.gpu_env (1 # 2)%Q "data/raw/"
                 (-3 # 1)%Q (3 # 1)%Q Augmentation.PNone
               = inr (Augmentation.mk_instance [("Placeholder", Augmentation.PStr "Remove Later")]))
    by reflexivity.
  split; [exact Ho|].
  exact (AddBackgroundNoiseWrapper_call_is_identity Augmentation.gpu_env (1 # 2)%Q "data/raw/"
           (-3 # 1)%Q (3 # 1)%Q Augmentation.PNone _ Ho).
Defined.

(* ================================================================== *)
(** * Further properties of the code *)

(** ** What [CacheFullBlock.transform] leaves alone *)

Lemma frame_refl (p : string) (w : fsw) : frame p w w.
Proof. by intros q _. Qed.

Lemma frame_trans (p : string) (w1 w2 w3 : fsw) :
  frame p w1 w2 -> frame p w2 w3 -> frame p w1 w3.
Proof. intros H12 H23 q Hq. by rewrite H23, H12. Qed.

Lemma frame_log (p : string) (w : fsw) (e : io) : frame p w (log_io w e).
Proof. by intros q _. Qed.

Lemma frame_set_dir (p : string) (w : fsw) (d : dir) (e : io) : frame p w (set_dir w p d e).
Proof. intros q Hq. cbn. by rewrite lookup_insert_ne by congruence. Qed.

Lemma frames_ret {X} (p : string) (x : X) : frames p (mret x).
Proof. intros w. apply frame_refl. Qed.

Lemma frames_raise {X} (p : string) (e : exn) : frames p (mraise (X:=X) e).
Proof. intros w. apply frame_refl. Qed.

Lemma frames_bind {X Y} (p : string) (m : M fsw X) (k : X -> M fsw Y) :
  frames p m -> (forall x, frames p (k x)) -> frames p (mbind m k).
Proof.
  intros Hm Hk w. unfold mbind. specialize (Hm w).
  destruct (m w) as [[e|x] w1]; cbn in *; [done|].
  eapply frame_trans; [exact Hm|apply Hk].
Qed.

Lemma frames_compute (p : string) (a : darray) : frames p (compute a).
Proof. intros w q _. by rewrite compute_fs. Qed.

Lemma frames_write_chunks (p : string) (bs : list (list Z)) :
  forall i, frames p (write_chunks p i bs).
Proof.
  induction bs as [|b bs IH]; intros i w; cbn; [apply frame_refl|].
  eapply frame_trans; [apply frame_set_dir|apply IH].
Qed.

Lemma frames_to_npy_stack (p : string) (X : darray) : frames p (to_npy_stack p X).
Proof.
  unfold to_npy_stack.
  apply frames_bind; [intros w; apply frame_log|intros e].
  apply frames_bind; [|intros u].
  { destruct e; [apply frames_ret|intros w; apply frame_set_dir]. }
  apply frames_bind; [intros w; apply frame_set_dir|intros u'].
  apply frames_bind; [apply frames_compute|intros v].
  apply frames_write_chunks.
Qed.

Lemma frames_from_npy_stack (p q : string) : frames p (from_npy_stack q).
Proof.
  intros w. unfold from_npy_stack.
  destruct (fs w !! q) as [[[cs|] files]|]; apply frame_log.
Qed.

(** ** Directories created by [os.makedirs] *)

Lemma kept_refl (o : option dir) : kept o o.
Proof. by left. Qed.

Lemma kept_trans (o1 o2 o3 : option dir) : kept o1 o2 -> kept o2 o3 -> kept o1 o3.
Proof.
  intros [->|[-> ->]] [->|[? ->]]; unfold kept; auto; discriminate.
Qed.

Lemma grows_refl (w : fsw) : grows w w.
Proof. intros q. apply kept_refl. Qed.

Lemma grows_trans (w1 w2 w3 : fsw) : grows w1 w2 -> grows w2 w3 -> grows w1 w3.
Proof. intros H12 H23 q. eapply kept_trans; [apply H12|apply H23]. Qed.

Lemma frame_keep_refl (p : string) (w : fsw) : frame_keep p w w.
Proof. intros q _. apply kept_refl. Qed.

Lemma frame_keep_trans (p : string) (w1 w2 w3 : fsw) :
  frame_keep p w1 w2 -> frame_keep p w2 w3 -> frame_keep p w1 w3.
Proof. intros H12 H23 q Hq. eapply kept_trans; [apply H12|apply H23]; done. Qed.

Lemma frame_keep_of_frame (p : string) (w w' : fsw) : frame p w w' -> frame_keep p w w'.
Proof. intros H q Hq. left. by apply H. Qed.

Lemma frame_keep_of_grows (p : string) (w w' : fsw) : grows w w' -> frame_keep p w w'.
Proof. intros H q _. apply H. Qed.

Lemma same_at_refl (q : string) (w : fsw) : same_at q w w.
Proof. done. Qed.

Lemma same_at_trans (q : string) (w1 w2 w3 : fsw) :
  same_at q w1 w2 -> same_at q w2 w3 -> same_at q w1 w3.
Proof. unfold same_at. congruence. Qed.

Lemma within_bind {X Y} (R : fsw -> fsw -> Prop)
    (HR : forall w1 w2 w3, R w1 w2 -> R w2 w3 -> R w1 w3)
    (m : M fsw X) (k : X -> M fsw Y) :
  within R m -> (forall x, within R (k x)) -> within R (mbind m k).
Proof.
  intros Hm Hk w. unfold mbind. specialize (Hm w).
  destruct (m w) as [[e|x] w1]; cbn in *; [done|].
  eapply HR; [exact Hm|apply Hk].
Qed.

Lemma within_ret {X} (R : fsw -> fsw -> Prop) (HR : forall w, R w w) (x : X) :
  within R (mret x).
Proof. intros w. apply HR. Qed.

Lemma within_os_path_exists (R : fsw -> fsw -> Prop)
    (HR : forall w w', fs w' = fs w -> R w w') (h : string) :
  within R (os_path_exists h).
Proof. intros w. by apply HR. Qed.

Lemma except_file_exists_snd (m : M fsw unit) (w : fsw) :
  snd (except_file_exists m w) = snd (m w).
Proof. unfold except_file_exists. by destruct (m w) as [[[]|] w']. Qed.

Lemma within_except (R : fsw -> fsw -> Prop) (m : M fsw unit) :
  within R m -> within R (except_file_exists m).
Proof. intros H w. rewrite except_file_exists_snd. apply H. Qed.

Lemma within_frames {X} (p : string) (m : M fsw X) : frames p m -> within (frame_keep p) m.
Proof. intros H w. apply frame_keep_of_frame, H. Qed.

Lemma within_grows {X} (p : string) (m : M fsw X) : within grows m -> within (frame_keep p) m.
Proof. intros H w. apply frame_keep_of_grows, H. Qed.

Lemma mkdir_grows (name : string) : within grows (mkdir name).
Proof.
  intros w q. unfold mkdir.
  destruct (fs w !! name) eqn:Hn; cbn; [apply kept_refl|].
  destruct (decide (q = name)) as [->|Hq].
  - rewrite lookup_insert_eq, Hn. by right.
  - rewrite lookup_insert_ne by congruence. apply kept_refl.
Qed.

Lemma mkdir_same_at (q name : string) : q <> name -> within (same_at q) (mkdir name).
Proof.
  intros Hq w. unfold mkdir, same_at.
  destruct (fs w !! name); cbn; [done|]. by rewrite lookup_insert_ne by congruence.
Qed.

Lemma mkdir_raises_exists_only (name : string) : raises_exists_only (mkdir name).
Proof.
  intros w e w'. unfold mkdir. destruct (fs w !! name); [|discriminate].
  intros [= <- _]. eauto.
Qed.

(** Lengths of the pieces [os.path.split] returns. *)
Lemma string_length_list (s : string) :
  String.length s = length (String.list_ascii_of_string s).
Proof. induction s; cbn; auto. Qed.

Lemma string_of_list_length (l : list ascii) :
  String.length (String.string_of_list_ascii l) = length l.
Proof. induction l; cbn; auto. Qed.

Lemma span_tail_length (r : list ascii) :
  length (fst (span_tail r)) + length (snd (span_tail r)) = length r.
Proof.
  induction r as [|c r IH]; cbn; [done|].
  destruct (is_slash c); cbn; [done|].
  destruct (span_tail r). cbn in *. lia.
Qed.

Lemma drop_slashes_length (r : list ascii) : length (drop_slashes r) <= length r.
Proof. induction r as [|c r IH]; cbn; [done|]. destruct (is_slash c); cbn; lia. Qed.

Lemma path_split_length (s : string) :
  String.length (fst (path_split s)) + String.length (snd (path_split s)) <= String.length s.
Proof.
  unfold path_split. rewrite (string_length_list s).
  pose proof (span_tail_length (rev (String.list_ascii_of_string s))) as H.
  destruct (span_tail (rev (String.list_ascii_of_string s))) as [rt rh]. cbn [fst snd] in *.
  rewrite length_rev in H.
  destruct (forallb is_slash rh); cbn [fst snd]; rewrite !string_of_list_length, !length_rev; [lia|].
  pose proof (drop_slashes_length rh). lia.
Qed.

(** The [head] and [tail] [os.makedirs] works on are together no longer
    than the path. *)
Lemma makedirs_split_length (name h0 t0 head tail : string) :
  path_split name = (h0, t0) ->
  (if String.eqb t0 "" then path_split h0 else (h0, t0)) = (head, tail) ->
  String.length head + String.length tail <= String.length name.
Proof.
  intros H1 H2. pose proof (path_split_length name) as L. rewrite H1 in L. cbn in L.
  destruct (String.eqb t0 "").
  - pose proof (path_split_length h0) as L'. rewrite H2 in L'. cbn in L'. lia.
  - injection H2 as -> ->. lia.
Qed.

Lemma string_nonempty_length (t : string) : String.eqb t "" = false -> 0 < String.length t.
Proof. destruct t; cbn; [discriminate|lia]. Qed.

(** [os.makedirs] only creates empty directories. *)
Lemma makedirs_grows (fuel : nat) : forall name, within grows (makedirs_fuel fuel name).
Proof.
  induction fuel as [|fuel IH]; intros name; cbn [makedirs_fuel];
    destruct (path_split name) as [h0 t0];
    destruct (if String.eqb t0 "" then path_split h0 else (h0, t0)) as [head tail];
    [apply mkdir_grows|].
  destruct (negb (String.eqb head "") && negb (String.eqb tail "")); [|apply mkdir_grows].
  apply within_bind; [exact grows_trans|..].
  { apply within_os_path_exists. intros w w' E q. rewrite E. apply kept_refl. }
  intros []; [apply mkdir_grows|].
  apply within_bind; [exact grows_trans|apply within_except, IH|intros _].
  destruct (String.eqb tail "."); [apply within_ret, grows_refl|apply mkdir_grows].
Qed.

(** [os.makedirs(name)] leaves every path longer than [name] alone. *)
Lemma makedirs_same_at (fuel : nat) : forall name q,
  String.length name < String.length q -> within (same_at q) (makedirs_fuel fuel name).
Proof.
  induction fuel as [|fuel IH]; intros name q Hlt; cbn [makedirs_fuel];
    destruct (path_split name) as [h0 t0] eqn:Hs1;
    destruct (if String.eqb t0 "" then path_split h0 else (h0, t0)) as [head tail] eqn:Hs2;
    [apply mkdir_same_at; intros ->; lia|].
  pose proof (makedirs_split_length name h0 t0 head tail Hs1 Hs2) as Hl.
  destruct (negb (String.eqb head "") && negb (String.eqb tail ""));
    [|apply mkdir_same_at; intros ->; lia].
  apply within_bind; [exact (same_at_trans q)|..].
  { apply within_os_path_exists. intros w w' E. unfold same_at. by rewrite E. }
  intros []; [apply mkdir_same_at; intros ->; lia|].
  apply within_bind; [exact (same_at_trans q)|apply within_except, IH; lia|intros _].
  destruct (String.eqb tail ".");
    [apply within_ret, same_at_refl|apply mkdir_same_at; intros ->; lia].
Qed.

(** [os.makedirs] raises nothing but [FileExistsError]. *)
Lemma makedirs_raises_exists_only (fuel : nat) :
  forall name, raises_exists_only (makedirs_fuel fuel name).
Proof.
  induction fuel as [|fuel IH]; intros name; cbn [makedirs_fuel];
    destruct (path_split name) as [h0 t0];
    destruct (if String.eqb t0 "" then path_split h0 else (h0, t0)) as [head tail];
    [apply mkdir_raises_exists_only|].
  destruct (negb (String.eqb head "") && negb (String.eqb tail ""));
    [|apply mkdir_raises_exists_only].
  intros w e w'. unfold mbind at 1, os_path_exists. cbn beta iota.
  destruct (bool_decide _); [apply mkdir_raises_exists_only|].
  unfold mbind, except_file_exists.
  destruct (makedirs_fuel fuel head _) as [[e0|[]] w1] eqn:Hm.
  - destruct (IH head _ e0 w1 Hm) as [q' ->].
    destruct (String.eqb tail "."); [discriminate|apply mkdir_raises_exists_only].
  - destruct (String.eqb tail "."); [discriminate|apply mkdir_raises_exists_only].
Qed.

Lemma except_makedirs (fuel : nat) (name : string) (w : fsw) :
  except_file_exists (makedirs_fuel fuel name) w = (inr tt, snd (makedirs_fuel fuel name w)).
Proof.
  unfold except_file_exists.
  destruct (makedirs_fuel fuel name w) as [[e|[]] w'] eqn:Hm; [|done].
  by destruct (makedirs_raises_exists_only fuel name w e w' Hm) as [q ->].
Qed.

(** [os.makedirs(name)] succeeds when [name] does not exist. *)
Lemma makedirs_absent (fuel : nat) (name : string) (w : fsw) :
  fs w !! name = None -> fst (makedirs_fuel fuel name w) = inr tt.
Proof.
  intros Hn. destruct fuel as [|fuel]; cbn [makedirs_fuel];
    destruct (path_split name) as [h0 t0] eqn:Hs1;
    destruct (if String.eqb t0 "" then path_split h0 else (h0, t0)) as [head tail] eqn:Hs2;
    [unfold mkdir; by rewrite Hn|].
  pose proof (makedirs_split_length name h0 t0 head tail Hs1 Hs2) as Hl.
  destruct (String.eqb head "") eqn:Hh; [cbn; unfold mkdir; by rewrite Hn|].
  destruct (String.eqb tail "") eqn:Ht; [cbn; unfold mkdir; by rewrite Hn|].
  pose proof (string_nonempty_length tail Ht) as Htl.
  cbn [negb andb]. unfold mbind at 1, os_path_exists. cbn beta iota.
  destruct (bool_decide _); [unfold mkdir; cbn; by rewrite Hn|].
  unfold mbind at 1. rewrite except_makedirs. cbn beta iota.
  destruct (String.eqb tail "."); [done|].
  unfold mkdir.
  pose proof (makedirs_same_at fuel head name ltac:(lia) (log_io w (IoExists head))) as E.
  unfold same_at in E. rewrite E. cbn [fs log_io]. by rewrite Hn.
Qed.

(** ** What [CacheFullBlock.transform] leaves alone *)

Lemma cache_full_block_keeps (p : string) (X : darray) :
  within (frame_keep p) (CacheFullBlock.transform (Some p) X).
Proof.
  cbn [CacheFullBlock.transform].
  destruct (negb (String.eqb p "")); [|apply within_frames, frames_raise].
  apply within_bind; [exact (frame_keep_trans p)|..].
  - apply within_frames. intros w0. unfold CacheFullBlock._data_exists.
    destruct (fs w0 !! p) as [d|]; [|apply frame_log].
    destruct (CacheFullBlock.complete_stack d); [|apply frame_log].
    eapply frame_trans; [apply frame_log|].
    apply (frames_bind p (from_npy_stack p) (fun h => mret (Some h))).
    + apply frames_from_npy_stack.
    + intros h. apply frames_ret.
  - intros [a|]; [apply within_ret, frame_keep_refl|].
    apply within_bind; [exact (frame_keep_trans p)|apply within_frames; intros w0; apply frame_log|].
    intros e.
    apply within_bind; [exact (frame_keep_trans p)| |intros u].
    { destruct e; [apply within_ret, frame_keep_refl|apply within_grows, makedirs_grows]. }
    apply within_bind; [exact (frame_keep_trans p)|apply within_frames, frames_to_npy_stack|].
    intros u'. apply within_frames, frames_from_npy_stack.
Qed.

(** X1: whatever happens ([data_path] missing, cache hit, miss, failed
    computation), [CacheFullBlock.transform] changes no existing path of
    the filesystem other than [data_path]; the only other paths it can
    add are empty directories ([os.makedirs] creating the missing parents
    of [data_path]). *)
Theorem cache_full_block_frame (p : string) (X : darray) (w : fsw) :
  forall q, q <> p ->
  fs (snd (CacheFullBlock.transform (Some p) X w)) !! q = fs w !! q \/
  (fs w !! q = None /\
   fs (snd (CacheFullBlock.transform (Some p) X w)) !! q = Some (mk_dir None [])).
Proof. intros q Hq. exact (cache_full_block_keeps p X w q Hq). Qed.

(** ** A miss on a fresh path *)

(** X2: a miss on a path that does not exist yet, for an array [X] of
    value [v] (whatever the filesystem holds outside [data_path], up to
    the directories [os.makedirs] adds): [CacheFullBlock.transform]
    returns the handle on the stack with the chunks of [v] along axis 0
    and one chunk along every other axis; [data_path] then holds exactly
    one chunk file per chunk along axis 0, whose contents concatenate to
    the elements of [v]; existing paths other than [data_path] are left as
    they were, and the other paths it adds are empty directories. *)
Theorem cache_full_block_fresh_miss_layout (p : string) (X : darray) (v : ndarray) (w : fsw) :
  p <> "" ->
  fs w !! p = None ->
  (forall w0, frame_keep p w w0 -> fst (compute X w0) = inr v) ->
  chunks v <> [] ->
  length (elems v) = foldr Nat.mul 1 (map sum_list (chunks v)) ->
  exists (w' : fsw) (bs : list (list Z)),
    CacheFullBlock.transform (Some p) X w
    = (inr (DFromNpyStack p (stack_chunks (chunks v))), w') /\
    fs w' !! p = Some (mk_dir (Some (stack_chunks (chunks v))) bs) /\
    length bs = length (axis0 (chunks v)) /\
    concat bs = elems v /\
    frame_keep p w w'.
Proof.
  intros Hp Hfresh Hv Hne Hlen.
  assert (Hcs : chunks v = chunks_of X)
    by (apply (compute_chunks X w); apply Hv, frame_keep_refl).
  cbn [CacheFullBlock.transform]. rewrite eqb_nonempty by done. cbn [negb].
  unfold mbind at 1.
  rewrite data_exists_miss by (intros d; by rewrite Hfresh).
  unfold mbind at 1, os_path_exists. cbn beta. cbn [fs log_io]. rewrite Hfresh.
  rewrite bool_decide_eq_false_2 by (intros [? ?]; done).
  set (w1 := log_io (log_io w (IoExists p)) (IoExists p)).
  assert (Hd1 : fs w1 !! p = None) by done.
  pose proof (makedirs_absent (String.length p) p w1 Hd1) as Hok.
  pose proof (makedirs_grows (String.length p) p w1) as Hg.
  unfold mbind at 1. fold (os_makedirs p) in *.
  destruct (os_makedirs p w1) as [r w3] eqn:Hm. cbn in Hok, Hg. subst r.
  assert (Hk3 : frame_keep p w w3)
    by (apply frame_keep_of_grows; intros q; apply (Hg q)).
  destruct (to_npy_stack_success p X v w3) as (w4 & Hs & Hw4).
  { intros w0 Hw0. apply Hv.
    eapply frame_keep_trans; [exact Hk3|apply frame_keep_of_frame, Hw0]. }
  assert (Hf3 : files_at w3 p = []).
  { unfold files_at. destruct (Hg p) as [->|[_ ->]]; [by rewrite Hd1|done]. }
  rewrite Hf3, drop_nil, app_nil_r in Hw4.
  set (cs := stack_chunks (chunks_of X)) in *.
  set (bs := split_by (map (fun c => c * row_size cs) (axis0 cs)) (elems v)) in *.
  unfold mbind at 1. rewrite Hs.
  unfold from_npy_stack. rewrite Hw4, lookup_insert_eq.
  exists (log_io w4 (IoReadInfo p)), bs. rewrite Hcs.
  split; [reflexivity|]. split; [cbn [fs log_io]; by rewrite Hw4, lookup_insert_eq|].
  split; [|split].
  - unfold bs. rewrite split_by_length, length_map. unfold cs.
    by destruct (chunks_of X).
  - unfold bs. apply concat_split_by.
    unfold cs. rewrite <- Hcs. destruct (chunks v) as [|c0 rest]; [done|].
    rewrite row_size_stack, sum_list_scale, Hlen. cbn. lia.
  - intros q Hq. cbn [fs log_io]. rewrite Hw4, lookup_insert_ne by congruence.
    by apply Hk3.
Qed.

(** ** Running the block twice *)

Lemma to_npy_stack_complete (p : string) (X : darray) (w w' : fsw) :
  to_npy_stack p X w = (inr tt, w') ->
  exists files,
    fs w' !! p = Some (mk_dir (Some (stack_chunks (chunks_of X))) files) /\
    length (axis0 (stack_chunks (chunks_of X))) <= length files.
Proof.
  unfold to_npy_stack.
  set (cs := stack_chunks (chunks_of X)).
  destruct (to_npy_stack_prelude p cs w
              (fun _ => let* v := compute (DRechunk cs X) in
                        write_chunks p 0 (split_by (map (fun c => c * row_size cs) (axis0 cs))
                                            (elems v))))
    as (w2 & -> & Hp2).
  unfold mbind at 1.
  pose proof (compute_fs (DRechunk cs X) w2) as Hfs.
  destruct (compute (DRechunk cs X) w2) as [[e|v] w3]; [discriminate|].
  cbn in Hfs.
  assert (Hp3 : fs w3 !! p = Some (mk_dir (Some cs) ([] ++ files_at w p))) by (rewrite Hfs; done).
  rewrite (write_chunks_spec p _ 0 [] (files_at w p) (Some cs) w3 Hp3 eq_refl).
  intros Heq; inversion Heq; subst; cbn.
  rewrite lookup_insert_eq. eexists; split; [reflexivity|].
  rewrite !length_app, split_by_length, length_map. lia.
Qed.

Lemma data_exists_complete (p : string) (X : darray) (w : fsw) (cs : list (list nat))
    (files : list (list Z)) :
  fs w !! p = Some (mk_dir (Some cs) files) ->
  length (axis0 cs) <= length files ->
  CacheFullBlock._data_exists p X w
  = (inr (Some (DFromNpyStack p cs)), mk_fsw (fs w) (io_log w ++ [IoExists p; IoReadInfo p])).
Proof.
  intros Hdir Hlen. unfold CacheFullBlock._data_exists. rewrite Hdir.
  unfold CacheFullBlock.complete_stack. cbn [info chunk_files].
  rewrite bool_decide_eq_true_2 by done.
  unfold mbind, from_npy_stack, log_io. cbn. rewrite Hdir.
  cbn. by rewrite <- app_assoc.
Qed.

(** Whenever [CacheFullBlock.transform] succeeds, [data_path] holds a
    complete chunk stack and the handle reads it. *)
Lemma cache_full_block_success_stack (p : string) (X : darray) (w w1 : fsw) (h : darray) :
  CacheFullBlock.transform (Some p) X w = (inr h, w1) ->
  p <> "" /\
  exists cs files, h = DFromNpyStack p cs /\
    fs w1 !! p = Some (mk_dir (Some cs) files) /\ length (axis0 cs) <= length files.
Proof.
  cbn [CacheFullBlock.transform].
  destruct (String.eqb p "") eqn:Hp; cbn [negb]; [discriminate|].
  apply String.eqb_neq in Hp.
  intros (a & w2 & Ha & Hk)%mbind_inr. split; [done|].
  destruct a as [a|].
  - inversion Hk; subst; clear Hk.
    unfold CacheFullBlock._data_exists in Ha.
    destruct (fs w !! p) as [[[cs|] files]|] eqn:Hdir; try discriminate.
    unfold CacheFullBlock.complete_stack in Ha. cbn [info chunk_files] in Ha.
    case_bool_decide as Hlen; [|discriminate].
    unfold mbind, from_npy_stack, log_io in Ha. cbn in Ha. rewrite Hdir in Ha.
    inversion Ha; subst. cbn. eauto.
  - apply mbind_inr in Hk as (e & w3 & _ & Hk).
    apply mbind_inr in Hk as (u & w4 & _ & Hk).
    apply mbind_inr in Hk as (u' & w5 & Hstack & Hk).
    destruct u'. apply to_npy_stack_complete in Hstack as (files & Hfiles & Hlen).
    unfold from_npy_stack in Hk. rewrite Hfiles in Hk. inversion Hk; subst. cbn. eauto.
Qed.

(** X3: after a successful run of [CacheFullBlock.transform] at
    [data_path], a second run (with any input) is a cache hit: it writes
    nothing, leaves the filesystem as it is, and returns the same handle
    as the first run. *)
Theorem cache_full_block_second_run (p : string) (X Y : darray) (w w1 : fsw) (h : darray) :
  CacheFullBlock.transform (Some p) X w = (inr h, w1) ->
  CacheFullBlock.transform (Some p) Y w1
  = (inr h, mk_fsw (fs w1) (io_log w1 ++ [IoExists p; IoReadInfo p])).
Proof.
  intros Hfirst.
  destruct (cache_full_block_success_stack p X w w1 h Hfirst)
    as (Hp & cs & files & -> & Hdir & Hlen).
  cbn [CacheFullBlock.transform]. rewrite eqb_nonempty by done. cbn [negb].
  unfold mbind at 1. by rewrite (data_exists_complete p Y w1 cs files Hdir Hlen).
Qed.

(** ** Witnesses of the properties above *)

Lemma kept_some (d : dir) (o : option dir) : kept (Some d) o -> o = Some d.
Proof. by intros [->|[? _]]. Qed.

Lemma cache_full_block_frame_witness :
  ("a" : string) <> "a/b" /\
  (fs (snd (CacheFullBlock.transform (Some "a/b") (DLit arr4x2) empty_fsw)) !! "a"
   = fs empty_fsw !! "a" \/
   (fs empty_fsw !! "a" = None /\
    fs (snd (CacheFullBlock.transform (Some "a/b") (DLit arr4x2) empty_fsw)) !! "a"
    = Some (mk_dir None []))).
Proof.
  split; [discriminate|].
  apply (cache_full_block_frame "a/b" (DLit arr4x2) empty_fsw "a").
  discriminate.
Defined.

Lemma cache_full_block_fresh_miss_layout_witness :
  let X := DAddConst 1 (DFromNpyStack "C" [[1;1;1;1]; [2]]) in
  let v := mk_ndarray [[1;1;1;1]; [2]] [2;3;4;5;6;7;8;9]%Z in
  ("D/E" : string) <> "" /\
  fs populated_C !! "D/E" = None /\
  (forall w0, frame_keep "D/E" populated_C w0 -> fst (compute X w0) = inr v) /\
  chunks v <> [] /\
  length (elems v) = foldr Nat.mul 1 (map sum_list (chunks v)) /\
  exists (w' : fsw) (bs : list (list Z)),
    CacheFullBlock.transform (Some "D/E") X populated_C
    = (inr (DFromNpyStack "D/E" (stack_chunks (chunks v))), w') /\
    fs w' !! "D/E" = Some (mk_dir (Some (stack_chunks (chunks v))) bs) /\
    length bs = length (axis0 (chunks v)) /\
    concat bs = elems v /\
    frame_keep "D/E" populated_C w'.
Proof.
  intros X v.
  assert (H0 : fs populated_C !! "D/E" = None) by (vm_compute; reflexivity).
  assert (HX : forall w0, frame_keep "D/E" populated_C w0 -> fst (compute X w0) = inr v).
  { intros w0 Hw0.
    assert (HC : fs w0 !! "C" = fs populated_C !! "C")
      by (apply kept_some; vm_compute; apply (Hw0 "C"); discriminate).
    unfold X, v. cbn [compute]. unfold mbind. cbn beta. rewrite HC.
    vm_compute. reflexivity. }
  split; [discriminate|]. split; [exact H0|]. split; [exact HX|].
  split; [discriminate|]. split; [reflexivity|].
  apply (cache_full_block_fresh_miss_layout "D/E" X v populated_C);
    [discriminate|exact H0|exact HX|discriminate|reflexivity].
Defined.

Lemma cache_full_block_second_run_witness :
  let X := DAddConst 1 (DLit arr4x2) in
  let w1 := snd (CacheFullBlock.transform (Some "D") X empty_fsw) in
  let h := DFromNpyStack "D" [[1;1;1;1]; [2]] in
  CacheFullBlock.transform (Some "D") X empty_fsw = (inr h, w1) /\
  CacheFullBlock.transform (Some "D") (DLit arr2x2) w1
  = (inr h, mk_fsw (fs w1) (io_log w1 ++ [IoExists "D"; IoReadInfo "D"])).
Proof.
  intros X w1 h.
  assert (H1 : CacheFullBlock.transform (Some "D") X empty_fsw = (inr h, w1))
    by (vm_compute; reflexivity).
  split; [exact H1|].
  apply (cache_full_block_second_run "D" X (DLit arr2x2) empty_fsw w1 h H1).
Defined.

(** ** [TransformationBlock.transform] when a step raises *)

Section TransformationBlockErrors.
Context {W A TArgs : Type} `{Cacher W A}.
Variable get_hash : string.

(** X5: with cache arguments, an exception of the existence check
    propagates out of [transform] unchanged: nothing after the check runs,
    in particular [custom_transform] is never invoked. *)
Theorem transform_cache_exists_raises
    (custom_transform : A -> TArgs -> M W A) (data : A) (cache_args : cache_args_t)
    (transform_args : TArgs) (w w1 : W) (tr : list call) (e : exn) :
  truthy_dict cache_args = true ->
  _cache_exists get_hash cache_args w = (inl e, w1) ->
  TransformationBlock.transform get_hash custom_transform data cache_args transform_args (w, tr)
  = (inl e, (w1, tr ++ [C_cache_exists])).
Proof.
  intros Htruthy Hexists.
  unfold TransformationBlock.transform, TransformationBlock.invoke, mbind.
  by rewrite Htruthy, Hexists.
Qed.

(** X6: on a cache miss, an exception of [custom_transform] propagates
    out of [transform] unchanged and [_store_cache] is never invoked, so
    nothing is cached. *)
Theorem transform_custom_raises_no_store
    (custom_transform : A -> TArgs -> M W A) (data : A) (cache_args : cache_args_t)
    (transform_args : TArgs) (w w1 w2 : W) (tr : list call) (e : exn) :
  truthy_dict cache_args = true ->
  _cache_exists get_hash cache_args w = (inr false, w1) ->
  custom_transform data transform_args w1 = (inl e, w2) ->
  TransformationBlock.transform get_hash custom_transform data cache_args transform_args (w, tr)
  = (inl e, (w2, tr ++ [C_cache_exists; C_custom_transform])).
Proof.
  intros Htruthy Hexists Hct.
  unfold TransformationBlock.transform, TransformationBlock.invoke, mbind.
  rewrite Htruthy, Hexists, Hct. by rewrite <- app_assoc.
Qed.

(** X7: on a cache miss, when [_store_cache] raises, [transform] raises
    the same exception: the data [custom_transform] produced is not
    returned. *)
Theorem transform_store_raises
    (custom_transform : A -> TArgs -> M W A) (data d : A) (cache_args : cache_args_t)
    (transform_args : TArgs) (w w1 w2 w3 : W) (tr : list call) (e : exn) :
  truthy_dict cache_args = true ->
  _cache_exists get_hash cache_args w = (inr false, w1) ->
  custom_transform data transform_args w1 = (inr d, w2) ->
  _store_cache get_hash d cache_args w2 = (inl e, w3) ->
  TransformationBlock.transform get_hash custom_transform data cache_args transform_args (w, tr)
  = (inl e, (w3, tr ++ [C_cache_exists; C_custom_transform; C_store_cache])).
Proof.
  intros Htruthy Hexists Hct Hstore.
  unfold TransformationBlock.transform, TransformationBlock.invoke, mbind.
  rewrite Htruthy, Hexists, Hct, Hstore. by rewrite <- !app_assoc.
Qed.

End TransformationBlockErrors.

Lemma transform_cache_exists_raises_witness :
  truthy_dict no_path_args = true /\
  _cache_exists "h" no_path_args empty_fsw
    = (inl (ConfigurationError "storage_path"), empty_fsw) /\
  TransformationBlock.transform "h" add_one (DLit arr2x2) no_path_args tt (empty_fsw, [])
  = (inl (ConfigurationError "storage_path"), (empty_fsw, [] ++ [C_cache_exists])).
Proof.
  assert (H1 : _cache_exists "h" no_path_args empty_fsw
               = (inl (ConfigurationError "storage_path"), empty_fsw)) by reflexivity.
  split; [reflexivity|]. split; [exact H1|].
  apply (transform_cache_exists_raises "h" add_one (DLit arr2x2) no_path_args tt
           empty_fsw empty_fsw [] _ eq_refl H1).
Defined.

Lemma transform_custom_raises_no_store_witness :
  let w1 := snd (_cache_exists "h" (npy_stack_args "C") empty_fsw) in
  truthy_dict (npy_stack_args "C") = true /\
  _cache_exists "h" (npy_stack_args "C") empty_fsw = (inr false, w1) /\
  failing_transform (DLit arr2x2) tt w1 = (inl (FileNotFoundError "input.npy"), w1) /\
  TransformationBlock.transform "h" failing_transform (DLit arr2x2) (npy_stack_args "C") tt
    (empty_fsw, [])
  = (inl (FileNotFoundError "input.npy"), (w1, [] ++ [C_cache_exists; C_custom_transform])).
Proof.
  intros w1.
  assert (H1 : _cache_exists "h" (npy_stack_args "C") empty_fsw = (inr false, w1))
    by (vm_compute; reflexivity).
  assert (H2 : failing_transform (DLit arr2x2) tt w1 = (inl (FileNotFoundError "input.npy"), w1))
    by reflexivity.
  split; [reflexivity|]. split; [exact H1|]. split; [exact H2|].
  apply (transform_custom_raises_no_store "h" failing_transform (DLit arr2x2)
           (npy_stack_args "C") tt empty_fsw w1 w1 [] _ eq_refl H1 H2).
Defined.

Lemma transform_store_raises_witness :
  let w1 := snd (_cache_exists "h" (npy_stack_args "C") empty_fsw) in
  let d := DFromNpyStack "missing" [[1]] in
  let w3 := snd (_store_cache "h" d (npy_stack_args "C") w1) in
  truthy_dict (npy_stack_args "C") = true /\
  _cache_exists "h" (npy_stack_args "C") empty_fsw = (inr false, w1) /\
  lazy_missing (DLit arr2x2) tt w1 = (inr d, w1) /\
  _store_cache "h" d (npy_stack_args "C") w1 = (inl (FileNotFoundError "missing"), w3) /\
  TransformationBlock.transform "h" lazy_missing (DLit arr2x2) (npy_stack_args "C") tt
    (empty_fsw, [])
  = (inl (FileNotFoundError "missing"),
     (w3, [] ++ [C_cache_exists; C_custom_transform; C_store_cache])).
Proof.
  intros w1 d w3.
  assert (H1 : _cache_exists "h" (npy_stack_args "C") empty_fsw = (inr false, w1))
    by (vm_compute; reflexivity).
  assert (H2 : lazy_missing (DLit arr2x2) tt w1 = (inr d, w1)) by reflexivity.
  assert (H3 : _store_cache "h" d (npy_stack_args "C") w1 = (inl (FileNotFoundError "missing"), w3))
    by (vm_compute; reflexivity).
  split; [reflexivity|]. split; [exact H1|]. split; [exact H2|]. split; [exact H3|].
  apply (transform_store_raises "h" lazy_missing (DLit arr2x2) d
           (npy_stack_args "C") tt empty_fsw w1 w1 w3 [] _ eq_refl H1 H2 H3).
Defined.

(** ** The augmentation utilities *)

Section AugmentationExtras.
Import Augmentation.

Lemma loop_x_app {T} (xs1 xs2 : list (T -> T)) :
  forall x, loop_x (xs1 ++ xs2) x = loop_x xs2 (loop_x xs1 x).
Proof. induction xs1 as [|t xs1 IH]; intros x; cbn; [done|apply IH]. Qed.

Lemma loop_xy_app {T U} (xys1 xys2 : list (T -> U -> T * U)) :
  forall x y, loop_xy (xys1 ++ xys2) x y = let '(x', y') := loop_xy xys1 x y in loop_xy xys2 x' y'.
Proof.
  induction xys1 as [|t xys1 IH]; intros x y; cbn; [done|].
  destruct (t x y) as [x' y']. apply IH.
Qed.

(** X8: a [CustomSequential] over concatenated lists is a pipeline of
    smaller ones: splitting the x-transforms gives a sequential with the
    first ones only followed by one with the rest (and all the
    xy-transforms); splitting the xy-transforms gives the sequential with
    the first ones followed by one with the remaining xy-transforms only. *)
Theorem CustomSequential_call_split {T U} (xs1 xs2 : list (T -> T))
    (xys : option (list (T -> U -> T * U))) (xs : option (list (T -> T)))
    (xys1 xys2 : list (T -> U -> T * U)) (x : T) (y : U) :
  CustomSequential_call (mk_CustomSequential (Some (xs1 ++ xs2)) xys) x y
  = (let '(x1, y1) := CustomSequential_call (mk_CustomSequential (Some xs1) None) x y in
     CustomSequential_call (mk_CustomSequential (Some xs2) xys) x1 y1) /\
  CustomSequential_call (mk_CustomSequential xs (Some (xys1 ++ xys2))) x y
  = (let '(x1, y1) := CustomSequential_call (mk_CustomSequential xs (Some xys1)) x y in
     CustomSequential_call (mk_CustomSequential None (Some xys2)) x1 y1).
Proof.
  unfold CustomSequential_call; cbn [x_transforms xy_transforms]. split.
  - by rewrite loop_x_app.
  - rewrite loop_xy_app. by destruct (loop_xy xys1 _ y).
Qed.

(** X10: on a machine with CUDA where [audiomentations] is not
    installed, the constructor of [AddBackgroundNoiseWrapper] raises the
    [ImportError] of [get_audiomentations]. *)
Theorem AddBackgroundNoiseWrapper_cuda_without_lib (E : env) (p : Q) (sounds_path : string)
    (min_snr_db max_snr_db : Q) (aug : pyval) :
  cuda_is_available E = true ->
  audiomentations E = None ->
  AddBackgroundNoiseWrapper E p sounds_path min_snr_db max_snr_db aug
  = inl (ImportError "If you want to use this augmentation you must install audiomentations").
Proof.
  intros Hcuda Hlib. unfold AddBackgroundNoiseWrapper, __post_init__.
  rewrite Hcuda. cbn. unfold get_audiomentations. by rewrite Hlib.
Qed.

(** X11: the outcome of the constructor of [AddBackgroundNoiseWrapper]
    (the instance, or the exception raised) does not depend on the
    [min_snr_db] or the [aug] it is given: [__post_init__] passes
    [max_snr_db] as both bounds of [AddBackgroundNoise]. *)
Theorem AddBackgroundNoiseWrapper_ignores_min_snr_db (E : env) (p : Q) (sounds_path : string)
    (min1 min2 max_snr_db : Q) (aug1 aug2 : pyval) :
  AddBackgroundNoiseWrapper E p sounds_path min1 max_snr_db aug1
  = AddBackgroundNoiseWrapper E p sounds_path min2 max_snr_db aug2.
Proof.
  unfold AddBackgroundNoiseWrapper, __post_init__.
  destruct (cuda_is_available E); [|reflexivity].
  cbn. unfold get_audiomentations.
  destruct (audiomentations E) as [lib|]; cbn; [|reflexivity].
  destruct (lib "PolarityInversion" _) as [e|noise]; cbn; [reflexivity|].
  destruct (lib "AddBackgroundNoise" _); reflexivity.
Qed.

End AugmentationExtras.

Lemma AddBackgroundNoiseWrapper_cuda_without_lib_witness :
  Augmentation.cuda_is_available Augmentation.gpu_env_no_lib = true /\
  Augmentation.audiomentations Augmentation.gpu_env_no_lib = None /\
  Augmentation.AddBackgroundNoiseWrapper Augmentation.gpu_env_no_lib (1 # 2)%Q "data/raw/"
    (-3 # 1)%Q (3 # 1)%Q Augmentation.PNone
  = inl (ImportError "If you want to use this augmentation you must install audiomentations").
Proof.
  split; [reflexivity|]. split; [reflexivity|].
  apply (AddBackgroundNoiseWrapper_cuda_without_lib Augmentation.gpu_env_no_lib);
    reflexivity.
Defined.

(** ** [CustomApplyOne] *)

Section ApplyOneFacts.
Context {T U : Type}.
Variable t_eq : ApplyOne.transform T U -> ApplyOne.transform T U -> bool.

Lemma append_ps_app (ps : list ApplyOne.pynum) (ts : list (ApplyOne.transform T U)) :
  ApplyOne.append_ps ps ts = ps ++ map ApplyOne.t_p ts.
Proof.
  revert ps. induction ts as [|t ts IH]; intros ps; cbn.
  - by rewrite app_nil_r.
  - rewrite IH. by rewrite <- app_assoc.
Qed.

Lemma collect_probabilities_lists (l1 l2 : list (ApplyOne.transform T U)) :
  ApplyOne.collect_probabilities (Some l1) (Some l2) = map ApplyOne.t_p (l1 ++ l2).
Proof. unfold ApplyOne.collect_probabilities. by rewrite !append_ps_app, map_app. Qed.

Lemma post_init_inr (l1 l2 : list (ApplyOne.transform T U)) (o : ApplyOne.CustomApplyOne T U) :
  ApplyOne.__post_init__ (Some l1) (Some l2) = inr o ->
  ApplyOne.x_transforms o = l1 /\ ApplyOne.xy_transforms o = l2 /\
  ApplyOne.all_transforms o = l1 ++ l2.
Proof.
  unfold ApplyOne.__post_init__.
  destruct (ApplyOne.normalise _); [discriminate|]. by intros [= <-].
Qed.

Lemma py_in_lookup (l : list (ApplyOne.transform T U)) (i : nat) (t : ApplyOne.transform T U) :
  l !! i = Some t -> ApplyOne.py_in t_eq t l = true.
Proof.
  intros Hi. unfold ApplyOne.py_in. apply existsb_exists.
  exists t. split; [by eapply list_elem_of_In, list_elem_of_lookup_2|].
  by rewrite Nat.eqb_refl.
Qed.

(** X12: the constructor of [CustomApplyOne] raises when either
    transform list is [None]: the [is not None] guards protect the
    probability loops, but not the concatenation of the two lists, which
    raises [TypeError]; before it is reached, a tensor of [int]
    probabilities makes the in-place division raise [RuntimeError]. *)
Theorem ApplyOne_post_init_none (xs xys : option (list (ApplyOne.transform T U))) :
  xs = None \/ xys = None ->
  ApplyOne.__post_init__ xs xys
  = inl (if ApplyOne.is_int_tensor (ApplyOne.collect_probabilities xs xys)
         then ApplyOne.RuntimeError "result type Float can't be cast to the desired output type Long"
         else ApplyOne.TypeError "unsupported operand type(s) for +").
Proof.
  intros Hnone. unfold ApplyOne.__post_init__, ApplyOne.normalise.
  destruct (ApplyOne.is_int_tensor _); [reflexivity|].
  destruct Hnone as [-> | ->]; [reflexivity|]. by destruct xs.
Qed.

(** X13: with two lists whose [p] values are not all [int]s, the
    constructor of [CustomApplyOne] succeeds; [all_transforms] is the
    x-transforms followed by the xy-transforms, the probability tensor
    has one entry per transform, and the [i]-th probability is the [p] of
    the [i]-th transform. *)
Theorem ApplyOne_post_init_aligned (l1 l2 : list (ApplyOne.transform T U)) :
  ApplyOne.is_int_tensor (map ApplyOne.t_p (l1 ++ l2)) = false ->
  exists o,
    ApplyOne.__post_init__ (Some l1) (Some l2) = inr o /\
    ApplyOne.x_transforms o = l1 /\ ApplyOne.xy_transforms o = l2 /\
    ApplyOne.all_transforms o = l1 ++ l2 /\
    length (ApplyOne.probabilities_tensor o) = length (ApplyOne.all_transforms o) /\
    forall i t, ApplyOne.all_transforms o !! i = Some t ->
                ApplyOne.probabilities o !! i = Some (ApplyOne.t_p t).
Proof.
  intros Hfloat. unfold ApplyOne.__post_init__.
  rewrite collect_probabilities_lists. unfold ApplyOne.normalise. rewrite Hfloat.
  eexists. split; [reflexivity|]. cbn.
  split; [done|]. split; [done|]. split; [done|]. split.
  - unfold ApplyOne.float_tensor. by rewrite !length_map.
  - intros i t Hi. by rewrite list_lookup_fmap, Hi.
Qed.

(** X16: when every [p] of the two lists is an [int] (and there is at
    least one transform), the constructor of [CustomApplyOne] raises
    [RuntimeError]: [torch.tensor] builds an [int64] tensor, which the
    in-place division by its sum cannot hold. *)
Theorem ApplyOne_post_init_int_p (l1 l2 : list (ApplyOne.transform T U)) :
  ApplyOne.is_int_tensor (map ApplyOne.t_p (l1 ++ l2)) = true ->
  ApplyOne.__post_init__ (Some l1) (Some l2)
  = inl (ApplyOne.RuntimeError "result type Float can't be cast to the desired output type Long").
Proof.
  intros Hint. unfold ApplyOne.__post_init__.
  rewrite collect_probabilities_lists. unfold ApplyOne.normalise. by rewrite Hint.
Qed.

(** X14: when the drawn transform is in only one of the lists, it is
    applied exactly once: an x-transform to [x] alone, an xy-transform to
    the pair; an object that does not take that number of arguments
    raises [TypeError]. *)
Theorem ApplyOne_call_single (l1 l2 : list (ApplyOne.transform T U))
    (o : ApplyOne.CustomApplyOne T U) (x : T) (y : U) :
  ApplyOne.__post_init__ (Some l1) (Some l2) = inr o ->
  (forall i t, l1 !! i = Some t -> ApplyOne.py_in t_eq t l2 = false ->
     ApplyOne.__call__ t_eq o i x y
     = match ApplyOne.t_call1 t with
       | Some f => inr (f x, y)
       | None => inl (ApplyOne.TypeError "__call__")
       end) /\
  (forall j t, l2 !! j = Some t -> ApplyOne.py_in t_eq t l1 = false ->
     ApplyOne.__call__ t_eq o (length l1 + j) x y
     = match ApplyOne.t_call2 t with
       | Some g => inr (g x y)
       | None => inl (ApplyOne.TypeError "__call__")
       end).
Proof.
  intros Ho. apply post_init_inr in Ho as (Hx & Hxy & Hall). split.
  - intros i t Hi Hn. unfold ApplyOne.__call__. rewrite Hall, Hx, Hxy.
    rewrite (lookup_app_l_Some _ _ _ _ Hi), (py_in_lookup l1 i t Hi).
    destruct (ApplyOne.t_call1 t); [|done]. by rewrite Hn.
  - intros j t Hj Hn. unfold ApplyOne.__call__. rewrite Hall, Hx, Hxy.
    rewrite lookup_app_r by lia. replace (length l1 + j - length l1) with j by lia.
    rewrite Hj, Hn, (py_in_lookup l2 j t Hj). done.
Qed.

(** X15: when the drawn x-transform is also in the xy-transforms (the
    same object, or one equal to it), it is applied twice: first to [x],
    then to the pair; a transform taking only [x] then raises [TypeError]. *)
Theorem ApplyOne_call_shared (l1 l2 : list (ApplyOne.transform T U))
    (o : ApplyOne.CustomApplyOne T U) (i : nat) (t : ApplyOne.transform T U) (x : T) (y : U) :
  ApplyOne.__post_init__ (Some l1) (Some l2) = inr o ->
  l1 !! i = Some t ->
  ApplyOne.py_in t_eq t l2 = true ->
  ApplyOne.__call__ t_eq o i x y
  = match ApplyOne.t_call1 t, ApplyOne.t_call2 t with
    | Some f, Some g => inr (g (f x) y)
    | _, _ => inl (ApplyOne.TypeError "__call__")
    end.
Proof.
  intros Ho Hi Hin. apply post_init_inr in Ho as (Hx & Hxy & Hall).
  unfold ApplyOne.__call__. rewrite Hall, Hx, Hxy.
  rewrite (lookup_app_l_Some _ _ _ _ Hi), (py_in_lookup l1 i t Hi), Hin.
  by destruct (ApplyOne.t_call1 t), (ApplyOne.t_call2 t).
Qed.

End ApplyOneFacts.

Lemma ApplyOne_post_init_none_witness :
  (@None (list (ApplyOne.transform Z Z)) = None \/
   Some [ApplyOne.noop_t 1 (ApplyOne.PyFloat (1 # 2))] = None) /\
  ApplyOne.__post_init__ None (Some [ApplyOne.noop_t 1 (ApplyOne.PyFloat (1 # 2))])
  = inl (if ApplyOne.is_int_tensor
              (ApplyOne.collect_probabilities None
                 (Some [ApplyOne.noop_t 1 (ApplyOne.PyFloat (1 # 2))]))
         then ApplyOne.RuntimeError "result type Float can't be cast to the desired output type Long"
         else ApplyOne.TypeError "unsupported operand type(s) for +").
Proof.
  split; [left; reflexivity|].
  apply (ApplyOne_post_init_none None (Some [ApplyOne.noop_t 1 (ApplyOne.PyFloat (1 # 2))])).
  left; reflexivity.
Defined.

Lemma ApplyOne_post_init_aligned_witness :
  let l1 := [ApplyOne.noop_t 1 (ApplyOne.PyFloat (1 # 2))] in
  let l2 := [ApplyOne.swap_t 2] in
  ApplyOne.is_int_tensor (map ApplyOne.t_p (l1 ++ l2)) = false /\
  exists o,
    ApplyOne.__post_init__ (Some l1) (Some l2) = inr o /\
    ApplyOne.x_transforms o = l1 /\ ApplyOne.xy_transforms o = l2 /\
    ApplyOne.all_transforms o = l1 ++ l2 /\
    length (ApplyOne.probabilities_tensor o) = length (ApplyOne.all_transforms o) /\
    forall i t, ApplyOne.all_transforms o !! i = Some t ->
                ApplyOne.probabilities o !! i = Some (ApplyOne.t_p t).
Proof.
  intros l1 l2. split; [reflexivity|].
  apply (ApplyOne_post_init_aligned l1 l2). reflexivity.
Defined.

Lemma ApplyOne_post_init_int_p_witness :
  ApplyOne.is_int_tensor
    (map ApplyOne.t_p ([ApplyOne.noop_t 1 (ApplyOne.PyInt 1)] ++ [])) = true /\
  ApplyOne.__post_init__ (Some [ApplyOne.noop_t 1 (ApplyOne.PyInt 1)]) (Some [])
  = inl (ApplyOne.RuntimeError "result type Float can't be cast to the desired output type Long").
Proof.
  split; [reflexivity|].
  apply (ApplyOne_post_init_int_p [ApplyOne.noop_t 1 (ApplyOne.PyInt 1)] []). reflexivity.
Defined.

Lemma ApplyOne_call_single_witness :
  let half := ApplyOne.PyFloat (1 # 2) in
  let o := ApplyOne.mk_CustomApplyOne [ApplyOne.noop_t 1 half] [ApplyOne.swap_t 2]
             [half; half] (ApplyOne.float_tensor [half; half])
             [ApplyOne.noop_t 1 half; ApplyOne.swap_t 2] in
  ApplyOne.__post_init__ (Some [ApplyOne.noop_t 1 half]) (Some [ApplyOne.swap_t 2]) = inr o /\
  ((forall i t, [ApplyOne.noop_t 1 half] !! i = Some t ->
      ApplyOne.py_in ApplyOne.dataclass_eq t [ApplyOne.swap_t 2] = false ->
      ApplyOne.__call__ ApplyOne.dataclass_eq o i 5%Z 7%Z
      = match ApplyOne.t_call1 t with
        | Some f => inr (f 5%Z, 7%Z)
        | None => inl (ApplyOne.TypeError "__call__")
        end) /\
   (forall j t, [ApplyOne.swap_t 2] !! j = Some t ->
      ApplyOne.py_in ApplyOne.dataclass_eq t [ApplyOne.noop_t 1 half] = false ->
      ApplyOne.__call__ ApplyOne.dataclass_eq o (length [ApplyOne.noop_t 1 half] + j) 5%Z 7%Z
      = match ApplyOne.t_call2 t with
        | Some g => inr (g 5%Z 7%Z)
        | None => inl (ApplyOne.TypeError "__call__")
        end)).
Proof.
  intros half o.
  assert (Ho : ApplyOne.__post_init__ (Some [ApplyOne.noop_t 1 half]) (Some [ApplyOne.swap_t 2])
               = inr o) by reflexivity.
  split; [exact Ho|].
  exact (ApplyOne_call_single ApplyOne.dataclass_eq [ApplyOne.noop_t 1 half] [ApplyOne.swap_t 2]
           o 5%Z 7%Z Ho).
Defined.

Lemma ApplyOne_call_shared_witness :
  let half := ApplyOne.PyFloat (1 # 2) in
  let o := ApplyOne.mk_CustomApplyOne [ApplyOne.noop_t 1 half] [ApplyOne.noop_t 2 half]
             [half; half] (ApplyOne.float_tensor [half; half])
             [ApplyOne.noop_t 1 half; ApplyOne.noop_t 2 half] in
  ApplyOne.__post_init__ (Some [ApplyOne.noop_t 1 half]) (Some [ApplyOne.noop_t 2 half]) = inr o /\
  [ApplyOne.noop_t 1 half] !! 0 = Some (ApplyOne.noop_t 1 half) /\
  ApplyOne.py_in ApplyOne.dataclass_eq (ApplyOne.noop_t 1 half) [ApplyOne.noop_t 2 half] = true /\
  ApplyOne.__call__ ApplyOne.dataclass_eq o 0 5%Z 7%Z
  = inl (ApplyOne.TypeError "__call__").
Proof.
  intros half o.
  assert (Ho : ApplyOne.__post_init__ (Some [ApplyOne.noop_t 1 half])
                 (Some [ApplyOne.noop_t 2 half]) = inr o) by reflexivity.
  assert (Hin : ApplyOne.py_in ApplyOne.dataclass_eq (ApplyOne.noop_t 1 half)
                  [ApplyOne.noop_t 2 half] = true) by reflexivity.
  split; [exact Ho|]. split; [reflexivity|]. split; [exact Hin|].
  exact (ApplyOne_call_shared ApplyOne.dataclass_eq [ApplyOne.noop_t 1 half]
           [ApplyOne.noop_t 2 half] o 0 (ApplyOne.noop_t 1 half) 5%Z 7%Z Ho eq_refl Hin).
Defined.

